(** * FHIR patient data finder: a shallow embedding of [find_patients.py]

    The script scans a FHIR server for patients with complete
    cardiovascular data.  Its three functions are embedded here:

    - [get_all_patients]       (the candidate enumerator),
    - [check_patient_data]     (the completeness evaluator),
    - [find_complete_patients] (the scan controller).

    The remote server is the only source of non-determinism.  It is a
    parameter of the development: a function from the history of the
    requests made so far and the requested URL to the outcome of
    [requests.get].  Every request is appended to a log, so that the
    theorems can speak about which requests a run makes.

    Console output ([print]) is not modelled, and neither is an interrupt
    from the keyboard, which is not an [Exception] and which the handlers
    of the three functions let through. *)

From Stdlib Require Import List String Ascii ZArith Bool Lia DecimalString.
Import ListNotations.
Local Open Scope string_scope.
Local Open Scope Z_scope.
Local Open Scope list_scope.
#[local] Set Warnings "-register-all".

(** ** Python values

    The values [response.json()] can produce.  A [dict] is kept as the list
    of its items in insertion order (Python iterates a dict in that order);
    the keys of a real dict are pairwise distinct, see [wf_value].  Strings
    are Rocq strings, one [ascii] per character.  A float is kept as its
    IEEE-754 bit pattern; the script never inspects a number. *)

Inductive value : Type :=
| VNone
| VBool (b : bool)
| VInt (z : Z)
| VFloat (bits : Z)
| VStr (s : string)
| VList (items : list value)
| VDict (items : list (string * value)).

(** The exceptions the embedded code can meet; all are subclasses of
    Python's [Exception], which is what the script's handlers catch. *)
Inductive exn : Type :=
| RequestException   (* requests.get: connection error, timeout, ... *)
| HTTPError          (* response.raise_for_status() *)
| JSONDecodeError    (* response.json() on a body that is not JSON *)
| TypeError
| KeyError.

Inductive Result (A : Type) : Type :=
| Ok (a : A)
| Raise (e : exn).
Arguments Ok {A} a.
Arguments Raise {A} e.

(** *** Operations on values used by the script *)

(** [needle in hay] for two strings: the substring test. *)
Fixpoint contains (needle hay : string) : bool :=
  if String.prefix needle hay then true
  else match hay with
       | EmptyString => false
       | String _ hay' => contains needle hay'
       end.

Fixpoint dict_get (key : string) (items : list (string * value)) : option value :=
  match items with
  | [] => None
  | (k, v) :: rest => if String.eqb k key then Some v else dict_get key rest
  end.

Definition str_eq (key : string) (v : value) : bool :=
  match v with
  | VStr s => String.eqb s key
  | _ => false
  end.

(** [key in v], for a string literal [key]. *)
Definition py_in (key : string) (v : value) : Result bool :=
  match v with
  | VDict items => Ok (match dict_get key items with Some _ => true | None => false end)
  | VList items => Ok (existsb (str_eq key) items)
  | VStr s => Ok (contains key s)
  | VNone | VBool _ | VInt _ | VFloat _ => Raise TypeError
  end.

(** [v[key]], for a string literal [key]. *)
Definition py_getitem (v : value) (key : string) : Result value :=
  match v with
  | VDict items =>
      match dict_get key items with
      | Some x => Ok x
      | None => Raise KeyError
      end
  | _ => Raise TypeError
  end.

(** [len(v)]. *)
Definition py_len (v : value) : Result Z :=
  match v with
  | VList items => Ok (Z.of_nat (List.length items))
  | VDict items => Ok (Z.of_nat (List.length items))
  | VStr s => Ok (Z.of_nat (String.length s))
  | VNone | VBool _ | VInt _ | VFloat _ => Raise TypeError
  end.

Fixpoint chars (s : string) : list value :=
  match s with
  | EmptyString => []
  | String c s' => VStr (String c EmptyString) :: chars s'
  end.

(** The sequence a [for] loop over [v] visits. *)
Definition py_iter (v : value) : Result (list value) :=
  match v with
  | VList items => Ok items
  | VDict items => Ok (map (fun kv => VStr (fst kv)) items)
  | VStr s => Ok (chars s)
  | VNone | VBool _ | VInt _ | VFloat _ => Raise TypeError
  end.

(** Keys of a dict are pairwise distinct, at every depth. *)
Fixpoint distinct (keys : list string) : bool :=
  match keys with
  | [] => true
  | k :: rest => negb (existsb (String.eqb k) rest) && distinct rest
  end.

Fixpoint wf_value (v : value) : bool :=
  match v with
  | VList items => forallb wf_value items
  | VDict items =>
      distinct (map fst items)
      && (fix wf_items (l : list (string * value)) : bool :=
            match l with
            | [] => true
            | (_, x) :: rest => wf_value x && wf_items rest
            end) items
  | _ => true
  end.

(** [str(z)] for an int. *)
Definition str_of_int (z : Z) : string := NilZero.string_of_int (Z.to_int z).

(** ** The [requests] library *)

Record Response : Type := mkResponse {
  status_code : Z;
  json : option value   (* [None]: [response.json()] raises *)
}.

Inductive GetOutcome : Type :=
| GetRaises
| GetReturns (r : Response).

Definition Log : Type := list string.

(** ** Computations

    A computation reads and writes the local variables [L] of the function
    it belongs to, makes requests (extending the log), and either returns
    or raises.  Writes made before an exception is raised stay. *)

Record Out (L A : Type) : Type := mkOut {
  out_res : Result A;
  out_locals : L;
  out_log : Log
}.
Arguments mkOut {L A} out_res out_locals out_log.
Arguments out_res {L A} o.
Arguments out_locals {L A} o.
Arguments out_log {L A} o.

Definition M (L A : Type) : Type := L -> Log -> Out L A.

(** A function of the script, seen from its caller. *)
Definition IO (A : Type) : Type := Log -> Result A * Log.

Definition ret {L A} (a : A) : M L A :=
  fun l lg => mkOut (Ok a) l lg.

Definition bind {L A B} (m : M L A) (k : A -> M L B) : M L B :=
  fun l lg =>
    match m l lg with
    | mkOut (Ok a) l' lg' => k a l' lg'
    | mkOut (Raise e) l' lg' => mkOut (Raise e) l' lg'
    end.

Definition raise {L A} (e : exn) : M L A :=
  fun l lg => mkOut (Raise e) l lg.

(** [try: body  except Exception: handler]. *)
Definition try_except {L A} (body : M L A) (handler : exn -> M L A) : M L A :=
  fun l lg =>
    match body l lg with
    | mkOut (Ok a) l' lg' => mkOut (Ok a) l' lg'
    | mkOut (Raise e) l' lg' => handler e l' lg'
    end.

Definition get_local {L} : M L L :=
  fun l lg => mkOut (Ok l) l lg.

Definition modify_local {L} (f : L -> L) : M L unit :=
  fun l lg => mkOut (Ok tt) (f l) lg.

(** A pure operation that may raise. *)
Definition lift {L A} (r : Result A) : M L A :=
  fun l lg => mkOut r l lg.

(** Calling a function of the script. *)
Definition call {L A} (f : IO A) : M L A :=
  fun l lg => let (r, lg') := f lg in mkOut r l lg'.

(** A function body run on fresh local variables. *)
Definition with_locals {L A} (init : L) (body : M L A) : IO A :=
  fun lg => let o := body init lg in (out_res o, out_log o).

Declare Scope prog_scope.
Delimit Scope prog_scope with prog.
Notation "x <- m ;; k" := (bind m (fun x => k))
  (at level 61, m at next level, right associativity) : prog_scope.
Notation "m ;; k" := (bind m (fun _ => k))
  (at level 61, right associativity) : prog_scope.
Local Open Scope prog_scope.

Definition FHIR_SERVER : string := "https://r3.smarthealthit.org".

(** The verdict dictionary [data_status] of [check_patient_data]; its keys
    are fixed, so it is a record. *)
Record data_status : Type := mkStatus {
  id : value;
  demographics : bool;
  blood_pressure : Z;
  weight : bool;
  height : bool;
  medications : Z;
  has_complete_data : bool
}.

Definition set_demographics (b : bool) (d : data_status) : data_status :=
  mkStatus (id d) b (blood_pressure d) (weight d) (height d) (medications d)
           (has_complete_data d).
Definition set_blood_pressure (n : Z) (d : data_status) : data_status :=
  mkStatus (id d) (demographics d) n (weight d) (height d) (medications d)
           (has_complete_data d).
Definition set_weight (b : bool) (d : data_status) : data_status :=
  mkStatus (id d) (demographics d) (blood_pressure d) b (height d) (medications d)
           (has_complete_data d).
Definition set_height (b : bool) (d : data_status) : data_status :=
  mkStatus (id d) (demographics d) (blood_pressure d) (weight d) b (medications d)
           (has_complete_data d).
Definition set_medications (n : Z) (d : data_status) : data_status :=
  mkStatus (id d) (demographics d) (blood_pressure d) (weight d) (height d) n
           (has_complete_data d).
Definition set_has_complete_data (b : bool) (d : data_status) : data_status :=
  mkStatus (id d) (demographics d) (blood_pressure d) (weight d) (height d)
           (medications d) b.

(** The identifier of a bundle entry, [entry['resource']['id']], and the
    identifiers of a list of entries; both fail where the subscripts do. *)
Definition entry_id (entry : value) : Result value :=
  match py_getitem entry "resource" with
  | Ok resource => py_getitem resource "id"
  | Raise e => Raise e
  end.

Fixpoint entry_ids (entries : list value) : Result (list value) :=
  match entries with
  | [] => Ok []
  | entry :: rest =>
      match entry_id entry with
      | Ok i =>
          match entry_ids rest with
          | Ok ids => Ok (i :: ids)
          | Raise e => Raise e
          end
      | Raise e => Raise e
      end
  end.

Section Script.

(** The remote server: what [requests.get url] does after the requests in
    the log have been made. *)
Variable server : Log -> string -> GetOutcome.

(** Python's [str()] on a value that is not a string, as used when an
    f-string interpolates it. *)
Variable py_str : value -> string.

Definition fmt (v : value) : string :=
  match v with
  | VStr s => s
  | _ => py_str v
  end.

(** [requests.get(url)] *)
Definition requests_get {L} (url : string) : M L Response :=
  fun l lg =>
    match server lg url with
    | GetRaises => mkOut (Raise RequestException) l (lg ++ [url])
    | GetReturns r => mkOut (Ok r) l (lg ++ [url])
    end.

(** [response.raise_for_status()]: raises on a 4xx or 5xx status. *)
Definition raise_for_status {L} (r : Response) : M L unit :=
  if (400 <=? status_code r) && (status_code r <? 600)
  then raise HTTPError
  else ret tt.

(** [response.json()] *)
Definition response_json {L} (r : Response) : M L value :=
  match json r with
  | Some v => ret v
  | None => raise JSONDecodeError
  end.

(** [for x in xs: body] over an already computed sequence, no [break]. *)
Fixpoint for_each {L} (xs : list value) (body : value -> M L unit) : M L unit :=
  match xs with
  | [] => ret tt
  | x :: rest => body x ;; for_each rest body
  end.

Definition patients_url (limit : Z) : string :=
  FHIR_SERVER ++ "/Patient?_count=" ++ str_of_int limit.

(** The body of the loop of [get_all_patients]:
    [patient_ids.append(entry['resource']['id'])]. *)
Definition append_id (entry : value) : M (list value) unit :=
  (resource <- lift (py_getitem entry "resource") ;;
   pid <- lift (py_getitem resource "id") ;;
   modify_local (fun patient_ids => patient_ids ++ [pid])).

(** The body of the [try] statement of [get_all_patients]; the local
    variable is [patient_ids]. *)
Definition get_all_patients_body (limit : Z) : M (list value) (list value) :=
  (response <- requests_get (patients_url limit) ;;
   raise_for_status response ;;
   data <- response_json response ;;
   modify_local (fun _ => []) ;;
   has_entry <- lift (py_in "entry" data) ;;
   (if has_entry : bool then
      entries <- lift (py_getitem data "entry") ;;
      seq <- lift (py_iter entries) ;;
      for_each seq append_id
    else ret tt) ;;
   get_local).

(** [get_all_patients] *)
Definition get_all_patients (limit : Z) : IO (list value) :=
  with_locals []
    (try_except (get_all_patients_body limit) (fun _ => ret [])).

(** [a and b] on two boolean tests: [b] is evaluated only when [a] is true. *)
Definition py_and {L} (a b : M L bool) : M L bool :=
  (x <- a ;; if x : bool then b else ret false).

Definition patient_url (patient_id : value) : string :=
  FHIR_SERVER ++ "/Patient/" ++ fmt patient_id.
Definition bp_url (patient_id : value) : string :=
  FHIR_SERVER ++ "/Observation?patient=" ++ fmt patient_id ++ "&code=55284-4&_count=50".
Definition weight_url (patient_id : value) : string :=
  FHIR_SERVER ++ "/Observation?patient=" ++ fmt patient_id ++ "&code=29463-7&_count=1".
Definition height_url (patient_id : value) : string :=
  FHIR_SERVER ++ "/Observation?patient=" ++ fmt patient_id ++ "&code=8302-2&_count=1".
Definition med_url (patient_id : value) : string :=
  FHIR_SERVER ++ "/MedicationRequest?patient=" ++ fmt patient_id ++ "&status=active".

Definition init_status (patient_id : value) : data_status :=
  mkStatus patient_id false 0 false false 0 false.

(** The five checks of [check_patient_data], in source order, and the
    final computation of [has_complete_data]. *)

(** [# Check demographics] *)
Definition check_demographics (patient_id : value) : M data_status unit :=
  (pt_response <- requests_get (patient_url patient_id) ;;
   if status_code pt_response =? 200 then
     pt_data <- response_json pt_response ;;
     c <- py_and (lift (py_in "name" pt_data)) (lift (py_in "birthDate" pt_data)) ;;
     if c : bool then modify_local (set_demographics true) else ret tt
   else ret tt).

(** [# Check Blood Pressure] *)
Definition check_blood_pressure (patient_id : value) : M data_status unit :=
  (bp_response <- requests_get (bp_url patient_id) ;;
   if status_code bp_response =? 200 then
     bp_data <- response_json bp_response ;;
     c <- lift (py_in "entry" bp_data) ;;
     if c : bool then
       entry <- lift (py_getitem bp_data "entry") ;;
       n <- lift (py_len entry) ;;
       modify_local (set_blood_pressure n)
     else ret tt
   else ret tt).

(** [# Check Weight] *)
Definition check_weight (patient_id : value) : M data_status unit :=
  (weight_response <- requests_get (weight_url patient_id) ;;
   if status_code weight_response =? 200 then
     weight_data <- response_json weight_response ;;
     c <- py_and (lift (py_in "entry" weight_data))
                 (entry <- lift (py_getitem weight_data "entry") ;;
                  n <- lift (py_len entry) ;;
                  ret (0 <? n)) ;;
     if c : bool then modify_local (set_weight true) else ret tt
   else ret tt).

(** [# Check Height] *)
Definition check_height (patient_id : value) : M data_status unit :=
  (height_response <- requests_get (height_url patient_id) ;;
   if status_code height_response =? 200 then
     height_data <- response_json height_response ;;
     c <- py_and (lift (py_in "entry" height_data))
                 (entry <- lift (py_getitem height_data "entry") ;;
                  n <- lift (py_len entry) ;;
                  ret (0 <? n)) ;;
     if c : bool then modify_local (set_height true) else ret tt
   else ret tt).

(** [# Check Medications] *)
Definition check_medications (patient_id : value) : M data_status unit :=
  (med_response <- requests_get (med_url patient_id) ;;
   if status_code med_response =? 200 then
     med_data <- response_json med_response ;;
     c <- lift (py_in "entry" med_data) ;;
     if c : bool then
       entry <- lift (py_getitem med_data "entry") ;;
       n <- lift (py_len entry) ;;
       modify_local (set_medications n)
     else ret tt
   else ret tt).

(** The completeness predicate on the fields of a verdict. *)
Definition required_present (d : data_status) : bool :=
  demographics d && (0 <? blood_pressure d) && weight d && height d.

(** [# Determine if patient has complete data] *)
Definition determine_complete : M data_status unit :=
  (d <- get_local ;;
   modify_local (set_has_complete_data (required_present d))).

(** The body of the [try] statement of [check_patient_data]. *)
Definition check_body (patient_id : value) : M data_status unit :=
  (check_demographics patient_id ;;
   check_blood_pressure patient_id ;;
   check_weight patient_id ;;
   check_height patient_id ;;
   check_medications patient_id ;;
   determine_complete).

(** [check_patient_data]; the local variable is [data_status]. *)
Definition check_patient_data (patient_id : value) : IO (bool * data_status) :=
  with_locals (init_status patient_id)
    (try_except (check_body patient_id) (fun _ => ret tt) ;;
     d <- get_local ;;
     ret (has_complete_data d, d)).

(** The [for] loop of [find_complete_patients]; the local variable is
    [complete_patients].  Leaving the recursion is the [break]. *)
Fixpoint scan_loop (target_count : Z) (patient_ids : list value)
  : M (list data_status) unit :=
  match patient_ids with
  | [] => ret tt
  | patient_id :: rest =>
      (r <- call (check_patient_data patient_id) ;;
       let '(has_complete, d) := r in
       if has_complete : bool then
         modify_local (fun complete_patients => complete_patients ++ [d]) ;;
         complete_patients <- get_local ;;
         if Z.of_nat (List.length complete_patients) >=? target_count
         then ret tt
         else scan_loop target_count rest
       else scan_loop target_count rest)
  end.

(** [find_complete_patients] *)
Definition find_complete_patients (target_count search_limit : Z)
  : IO (list data_status) :=
  with_locals []
    (patient_ids <- call (get_all_patients search_limit) ;;
     scan_loop target_count patient_ids ;;
     get_local).

(** ** The evaluator as the specification describes it

    Each of the five checks under its own handler, so that a check that
    raises leaves its field at the default and the next check still runs.
    This is not the script's code; it is what the script is compared with. *)
Definition isolated (check : M data_status unit) : M data_status unit :=
  try_except check (fun _ => ret tt).

Definition check_patient_data_isolated (patient_id : value) : IO (bool * data_status) :=
  with_locals (init_status patient_id)
    (isolated (check_demographics patient_id) ;;
     isolated (check_blood_pressure patient_id) ;;
     isolated (check_weight patient_id) ;;
     isolated (check_height patient_id) ;;
     isolated (check_medications patient_id) ;;
     determine_complete ;;
     d <- get_local ;;
     ret (has_complete_data d, d)).

(** Evaluating every candidate of a list, one after the other: the
    verdicts and the log afterwards. *)
Fixpoint eval_all (patient_ids : list value) (lg : Log)
  : list (bool * data_status) * Log :=
  match patient_ids with
  | [] => ([], lg)
  | patient_id :: rest =>
      match check_patient_data patient_id lg with
      | (Ok r, lg1) => let (rs, lg2) := eval_all rest lg1 in (r :: rs, lg2)
      | (Raise _, lg1) => ([], lg1)
      end
  end.

(** The verdicts of the complete candidates among evaluated ones. *)
Definition completes (rs : list (bool * data_status)) : list data_status :=
  map snd (filter fst rs).

(** The verdicts that evaluating [patient_ids] from log [lg] finds complete. *)
Definition found (patient_ids : list value) (lg : Log) : list data_status :=
  completes (fst (eval_all patient_ids lg)).

(** The requests an evaluation of [patient_id] can make. *)
Definition check_urls (patient_id : value) : list string :=
  [patient_url patient_id; bp_url patient_id; weight_url patient_id;
   height_url patient_id; med_url patient_id].

(** ** Properties of a single check *)

(** A check makes exactly one request, and a check that raises has not
    written to [data_status]. *)
Definition one_request (check : M data_status unit) (url : string) : Prop :=
  forall d lg,
    out_log (check d lg) = lg ++ [url]
    /\ (forall e, out_res (check d lg) = Raise e -> out_locals (check d lg) = d).

(** A check leaves the field [f] of [data_status] alone. *)
Definition preserves {T} (f : data_status -> T) (check : M data_status unit) : Prop :=
  forall d lg, f (out_locals (check d lg)) = f d.

(** How a run that started in [d0] ends: with [has_complete_data] computed
    from the four required fields, or, after an exception, as it was. *)
Definition ends_well (d0 : data_status) (o : Out data_status unit) : Prop :=
  match out_res o with
  | Ok _ => has_complete_data (out_locals o) = required_present (out_locals o)
  | Raise _ => has_complete_data (out_locals o) = has_complete_data d0
  end.

(** A check answered with a status other than 200 returns normally and
    leaves [data_status] as it was. *)
Definition skips_on_status (check : M data_status unit) (url : string) : Prop :=
  forall d lg r,
    server lg url = GetReturns r -> status_code r <> 200 ->
    check d lg = mkOut (Ok tt) d (lg ++ [url]).

(** A check whose request raises stops there. *)
Definition aborts_on_transport (check : M data_status unit) (url : string) : Prop :=
  forall d lg,
    server lg url = GetRaises ->
    check d lg = mkOut (Raise RequestException) d (lg ++ [url]).

(** The script's evaluator behaves as the isolated one. *)
Definition checks_are_isolated : Prop :=
  forall patient_id lg,
    check_patient_data patient_id lg = check_patient_data_isolated patient_id lg.

End Script.

(** ** Concrete servers

    Small servers used to run the script on.  None of them depends on the
    history of requests, and none returns an identifier that is not a
    string, so [no_str] is never consulted. *)

Definition no_str (_ : value) : string := "".

Definition bundle (entries : list value) : value :=
  VDict [("resourceType", VStr "Bundle"); ("entry", VList entries)].
Definition empty_bundle : value :=
  VDict [("resourceType", VStr "Bundle")].
Definition patient_entry (pid : string) : value :=
  VDict [("resource", VDict [("resourceType", VStr "Patient"); ("id", VStr pid)])].
Definition observation : value :=
  VDict [("resource", VDict [("resourceType", VStr "Observation")])].
Definition patient_record : value :=
  VDict [("resourceType", VStr "Patient");
         ("name", VList [VDict [("family", VStr "Doe")]]);
         ("birthDate", VStr "1970-01-01")].
Definition ok (body : value) : GetOutcome :=
  GetReturns (mkResponse 200 (Some body)).

(** Answers by URL: the first matching row, else [default]. *)
Fixpoint answer (table : list (string * GetOutcome)) (default : GetOutcome)
  (url : string) : GetOutcome :=
  match table with
  | [] => default
  | (u, o) :: rest => if String.eqb u url then o else answer rest default url
  end.

(** The rows of a patient with all required data and two active
    medication requests. *)
Definition complete_rows (pid : string) : list (string * GetOutcome) :=
  [(patient_url no_str (VStr pid), ok patient_record);
   (bp_url no_str (VStr pid), ok (bundle [observation; observation]));
   (weight_url no_str (VStr pid), ok (bundle [observation]));
   (height_url no_str (VStr pid), ok (bundle [observation]));
   (med_url no_str (VStr pid), ok (bundle [observation; observation]))].

(** Three patients are listed; only "p2" has complete data, the others
    have no observation at all. *)
Definition srv_three (_ : Log) (url : string) : GetOutcome :=
  answer ((patients_url 200,
           ok (bundle [patient_entry "p1"; patient_entry "p2"; patient_entry "p3"]))
            :: complete_rows "p2")
         (ok empty_bundle) url.

(** No patient is listed. *)
Definition srv_none (_ : Log) (url : string) : GetOutcome :=
  ok empty_bundle.

(** Patient "p1" has everything, but the blood-pressure request fails in
    transport. *)
Definition srv_bp_down (_ : Log) (url : string) : GetOutcome :=
  answer ((bp_url no_str (VStr "p1"), GetRaises) :: complete_rows "p1")
         (ok empty_bundle) url.

(** Patient "p1" has everything, but the medication request fails in
    transport. *)
Definition srv_med_down (_ : Log) (url : string) : GetOutcome :=
  answer ((med_url no_str (VStr "p1"), GetRaises) :: complete_rows "p1")
         (ok empty_bundle) url.

(** The patient list is answered with status 300 and a bundle as body. *)
Definition srv_status_300 (_ : Log) (url : string) : GetOutcome :=
  GetReturns (mkResponse 300 (Some (bundle [patient_entry "p1"]))).

(** The patient list has two entries whatever [_count] asks for. *)
Definition srv_two (_ : Log) (url : string) : GetOutcome :=
  ok (bundle [patient_entry "p1"; patient_entry "p2"]).

(** The patient list is answered with status 503. *)
Definition srv_unavailable (_ : Log) (url : string) : GetOutcome :=
  GetReturns (mkResponse 503 None).

(** ** Vocabulary for further properties *)

(** [l1] is [l2] with some elements left out, the order kept. *)
Inductive subseq {A : Type} : list A -> list A -> Prop :=
| subseq_nil : subseq [] []
| subseq_skip : forall x l1 l2, subseq l1 l2 -> subseq l1 (x :: l2)
| subseq_keep : forall x l1 l2, subseq l1 l2 -> subseq (x :: l1) (x :: l2).

(** [key in d] for the items of a dict. *)
Definition has_key (key : string) (items : list (string * value)) : bool :=
  match dict_get key items with
  | Some _ => true
  | None => false
  end.

(** The request was answered with status 200 and a JSON object. *)
Definition object_response (o : GetOutcome) (items : list (string * value)) : Prop :=
  exists r, o = GetReturns r /\ status_code r = 200 /\ json r = Some (VDict items).

(** The request was answered with status 200 and a JSON object whose
    [entry] is the list [entries]. *)
Definition bundle_response (o : GetOutcome) (entries : list value) : Prop :=
  exists items,
    object_response o items /\ dict_get "entry" items = Some (VList entries).

(** The patient list has a second entry without a [resource]. *)
Definition srv_one_bad (_ : Log) (url : string) : GetOutcome :=
  ok (bundle [patient_entry "p1"; VDict [("fullUrl", VStr "urn:x")];
              patient_entry "p3"]).

(** The five checks of [check_patient_data] with the URLs they request,
    in source order, and the run of a list of checks one after the other. *)
Definition checks (server : Log -> string -> GetOutcome) (py_str : value -> string)
  (patient_id : value) : list (M data_status unit * string) :=
  [(check_demographics server py_str patient_id, patient_url py_str patient_id);
   (check_blood_pressure server py_str patient_id, bp_url py_str patient_id);
   (check_weight server py_str patient_id, weight_url py_str patient_id);
   (check_height server py_str patient_id, height_url py_str patient_id);
   (check_medications server py_str patient_id, med_url py_str patient_id)].

Fixpoint run_checks (cs : list (M data_status unit * string)) : M data_status unit :=
  match cs with
  | [] => ret tt
  | (check, _) :: rest => bind check (fun _ => run_checks rest)
  end.

(** [None], a boolean or a number: a value with no [in], no subscript and
    no [len]. *)
Definition scalar (v : value) : bool :=
  match v with
  | VNone | VBool _ | VInt _ | VFloat _ => true
  | VStr _ | VList _ | VDict _ => false
  end.

(** A check answered with status 200 and a body that [json()] rejects
    stops there. *)
Definition aborts_on_bad_json (server : Log -> string -> GetOutcome)
  (check : M data_status unit) (url : string) : Prop :=
  forall d lg r,
    server lg url = GetReturns r -> status_code r = 200 -> json r = None ->
    check d lg = mkOut (Raise JSONDecodeError) d (lg ++ [url]).

(** A check answered with status 200 and a scalar as body stops there. *)
Definition aborts_on_scalar_body (server : Log -> string -> GetOutcome)
  (check : M data_status unit) (url : string) : Prop :=
  forall d lg r body,
    server lg url = GetReturns r -> status_code r = 200 -> json r = Some body ->
    scalar body = true ->
    check d lg = mkOut (Raise TypeError) d (lg ++ [url]).

(** Patient "p1" has everything, but the weight request is answered with
    status 200 and a body that is not JSON. *)
Definition srv_weight_garbled (_ : Log) (url : string) : GetOutcome :=
  answer ((weight_url no_str (VStr "p1"), GetReturns (mkResponse 200 None))
            :: complete_rows "p1")
         (ok empty_bundle) url.

(** ** Proof automation *)

Ltac split_outcomes :=
  repeat match goal with
    | |- context [match ?x with _ => _ end] =>
        match type of x with
        | GetOutcome => destruct x as [|?r] eqn:?
        | Result _ => destruct x as [?a|?e] eqn:?
        | option _ => destruct x as [?v|] eqn:?
        | bool => destruct x eqn:?
        end; cbn
    | |- context [if ?x then _ else _] => destruct x eqn:?; cbn
    end.

Ltac open_check :=
  unfold check_demographics, check_blood_pressure, check_weight, check_height,
    check_medications, determine_complete, bind, requests_get, response_json,
    py_and, lift, ret, raise, modify_local, get_local.

(** ** Facts about the script *)

Section Facts.
Variable server : Log -> string -> GetOutcome.
Variable py_str : value -> string.

Lemma checks_one_request pid :
  one_request (check_demographics server py_str pid) (patient_url py_str pid)
  /\ one_request (check_blood_pressure server py_str pid) (bp_url py_str pid)
  /\ one_request (check_weight server py_str pid) (weight_url py_str pid)
  /\ one_request (check_height server py_str pid) (height_url py_str pid)
  /\ one_request (check_medications server py_str pid) (med_url py_str pid).
Proof.
  repeat split; open_check; split_outcomes; intros; try discriminate; reflexivity.
Qed.

Lemma checks_preserve_id pid :
  preserves id (check_demographics server py_str pid)
  /\ preserves id (check_blood_pressure server py_str pid)
  /\ preserves id (check_weight server py_str pid)
  /\ preserves id (check_height server py_str pid)
  /\ preserves id (check_medications server py_str pid).
Proof.
  repeat split; intros d lg; open_check; split_outcomes; reflexivity.
Qed.

Lemma checks_preserve_complete pid :
  preserves has_complete_data (check_demographics server py_str pid)
  /\ preserves has_complete_data (check_blood_pressure server py_str pid)
  /\ preserves has_complete_data (check_weight server py_str pid)
  /\ preserves has_complete_data (check_height server py_str pid)
  /\ preserves has_complete_data (check_medications server py_str pid).
Proof.
  repeat split; intros d lg; open_check; split_outcomes; reflexivity.
Qed.

Lemma later_checks_preserve_bp pid :
  preserves blood_pressure (check_weight server py_str pid)
  /\ preserves blood_pressure (check_height server py_str pid)
  /\ preserves blood_pressure (check_medications server py_str pid).
Proof.
  repeat split; intros d lg; open_check; split_outcomes; reflexivity.
Qed.

Lemma check_patient_data_eq pid lg :
  check_patient_data server py_str pid lg
  = let o := check_body server py_str pid (init_status pid) lg in
    (Ok (has_complete_data (out_locals o), out_locals o), out_log o).
Proof.
  unfold check_patient_data, with_locals, try_except, bind, get_local, ret.
  destruct (check_body server py_str pid (init_status pid) lg) as [[[]|e] d' lg'];
    reflexivity.
Qed.


Lemma preserves_seq {T} (f : data_status -> T) (m k : M data_status unit) :
  preserves f m -> preserves f k -> preserves f (bind m (fun _ => k)).
Proof.
  intros Hm Hk d lg. unfold bind. specialize (Hm d lg).
  destruct (m d lg) as [[[]|e] d' lg']; cbn in *; [rewrite Hk|]; assumption.
Qed.

Lemma ends_well_seq (m k : M data_status unit) :
  preserves has_complete_data m ->
  (forall d lg, ends_well d (k d lg)) ->
  forall d lg, ends_well d (bind m (fun _ => k) d lg).
Proof.
  intros Hm Hk d lg. unfold bind. specialize (Hm d lg).
  destruct (m d lg) as [[[]|e] d' lg'] eqn:E; cbn in *.
  - specialize (Hk d' lg'). unfold ends_well in *.
    destruct (out_res (k d' lg')); congruence.
  - exact Hm.
Qed.

Lemma check_body_preserves_id pid :
  preserves id (check_body server py_str pid).
Proof.
  destruct (checks_preserve_id pid) as (I1 & I2 & I3 & I4 & I5).
  unfold check_body. repeat apply preserves_seq; try assumption.
  intros d lg. reflexivity.
Qed.

Lemma check_body_ends_well pid d lg :
  ends_well d (check_body server py_str pid d lg).
Proof.
  destruct (checks_preserve_complete pid) as (C1 & C2 & C3 & C4 & C5).
  revert d lg. unfold check_body. repeat apply ends_well_seq; try assumption.
  intros d lg. reflexivity.
Qed.

Lemma checks_skip_on_status pid :
  skips_on_status server (check_demographics server py_str pid) (patient_url py_str pid)
  /\ skips_on_status server (check_blood_pressure server py_str pid) (bp_url py_str pid)
  /\ skips_on_status server (check_weight server py_str pid) (weight_url py_str pid)
  /\ skips_on_status server (check_height server py_str pid) (height_url py_str pid)
  /\ skips_on_status server (check_medications server py_str pid) (med_url py_str pid).
Proof.
  repeat split; intros d lg r Hs Hne; open_check; rewrite Hs;
    apply Z.eqb_neq in Hne; rewrite Hne; reflexivity.
Qed.

Lemma checks_abort_on_transport pid :
  aborts_on_transport server (check_demographics server py_str pid) (patient_url py_str pid)
  /\ aborts_on_transport server (check_blood_pressure server py_str pid) (bp_url py_str pid)
  /\ aborts_on_transport server (check_weight server py_str pid) (weight_url py_str pid)
  /\ aborts_on_transport server (check_height server py_str pid) (height_url py_str pid)
  /\ aborts_on_transport server (check_medications server py_str pid) (med_url py_str pid).
Proof.
  repeat split; intros d lg Hs; open_check; rewrite Hs; reflexivity.
Qed.


Lemma no_raise_same_as_isolated pid lg :
  out_res (check_body server py_str pid (init_status pid) lg) = Ok tt ->
  check_patient_data server py_str pid lg
  = check_patient_data_isolated server py_str pid lg.
Proof.
  unfold check_patient_data, check_patient_data_isolated, with_locals, isolated,
    check_body.
  generalize (init_status pid) as d. intros d. cbv zeta.
  unfold bind, try_except.
  destruct (check_demographics server py_str pid d lg) as [[[]|e] d1 lg1];
    [|discriminate].
  destruct (check_blood_pressure server py_str pid d1 lg1) as [[[]|e] d2 lg2];
    [|discriminate].
  destruct (check_weight server py_str pid d2 lg2) as [[[]|e] d3 lg3];
    [|discriminate].
  destruct (check_height server py_str pid d3 lg3) as [[[]|e] d4 lg4];
    [|discriminate].
  destruct (check_medications server py_str pid d4 lg4) as [[[]|e] d5 lg5];
    [|discriminate].
  intros _. reflexivity.
Qed.

Lemma bp_transport_failure pid lg d1 lg1 :
  check_demographics server py_str pid (init_status pid) lg = mkOut (Ok tt) d1 lg1 ->
  server lg1 (bp_url py_str pid) = GetRaises ->
  check_patient_data server py_str pid lg = (Ok (false, d1), lg1 ++ [bp_url py_str pid])
  /\ d1 = mkStatus pid (demographics d1) 0 false false 0 false.
Proof.
  intros H1 H2.
  destruct (checks_abort_on_transport pid) as (_ & A2 & _).
  assert (Hd : d1 = mkStatus pid (demographics d1) 0 false false 0 false).
  { revert H1. open_check. split_outcomes; intros H; inversion H; reflexivity. }
  split; [|exact Hd].
  rewrite check_patient_data_eq. unfold check_body. cbv zeta.
  unfold bind. rewrite H1. rewrite (A2 d1 lg1 H2).
  cbn. rewrite Hd. reflexivity.
Qed.

(** The blood-pressure field of the verdict is the one the blood-pressure
    check leaves. *)
Lemma bp_field_after_check pid lg d1 lg1 :
  check_demographics server py_str pid (init_status pid) lg = mkOut (Ok tt) d1 lg1 ->
  blood_pressure (out_locals (check_body server py_str pid (init_status pid) lg))
  = blood_pressure (out_locals (check_blood_pressure server py_str pid d1 lg1))
  /\ blood_pressure d1 = 0.
Proof.
  intros H1.
  destruct (later_checks_preserve_bp pid) as (B3 & B4 & B5).
  split.
  - unfold check_body. unfold bind at 1. rewrite H1.
    unfold bind at 1.
    destruct (check_blood_pressure server py_str pid d1 lg1) as [[[]|e] d2 lg2];
      [|reflexivity].
    cbn [out_locals].
    assert (P : preserves blood_pressure
                  (bind (check_weight server py_str pid) (fun _ =>
                   bind (check_height server py_str pid) (fun _ =>
                   bind (check_medications server py_str pid) (fun _ =>
                   determine_complete))))).
    { repeat apply preserves_seq; try assumption. intros d lg'. reflexivity. }
    apply P.
  - revert H1. open_check. split_outcomes; intros H; inversion H; reflexivity.
Qed.

Lemma bp_field_when_demographics_raises pid lg e :
  out_res (check_demographics server py_str pid (init_status pid) lg) = Raise e ->
  blood_pressure (out_locals (check_body server py_str pid (init_status pid) lg)) = 0.
Proof.
  intros H. destruct (checks_one_request pid) as (R1 & _).
  destruct (R1 (init_status pid) lg) as [_ K]. specialize (K e H).
  unfold check_body. unfold bind at 1.
  destruct (check_demographics server py_str pid (init_status pid) lg)
    as [[[]|e'] d1 lg1]; cbn in *; [discriminate|]. rewrite K. reflexivity.
Qed.


(** *** The enumerator *)

Lemma entry_ids_Forall2 es ids :
  entry_ids es = Ok ids -> Forall2 (fun e i => entry_id e = Ok i) es ids.
Proof.
  revert ids. induction es as [|e es IH]; cbn; intros ids H.
  - inversion H. constructor.
  - destruct (entry_id e) as [i|x] eqn:Ei; [|discriminate].
    destruct (entry_ids es) as [ids'|x]; [|discriminate].
    inversion H. constructor; auto.
Qed.

Lemma append_id_eq e l lg :
  append_id e l lg
  = match entry_id e with
    | Ok i => mkOut (Ok tt) (l ++ [i]) lg
    | Raise x => mkOut (Raise x) l lg
    end.
Proof.
  unfold append_id, entry_id, bind, lift, modify_local.
  destruct (py_getitem e "resource") as [res|x]; [|reflexivity].
  destruct (py_getitem res "id") as [i|x]; reflexivity.
Qed.

Lemma for_each_append_id es :
  forall l lg,
    out_log (for_each es append_id l lg) = lg
    /\ match entry_ids es with
       | Ok ids => for_each es append_id l lg = mkOut (Ok tt) (l ++ ids) lg
       | Raise e => out_res (for_each es append_id l lg) = Raise e
       end.
Proof.
  induction es as [|e es IH]; intros l lg; cbn [for_each entry_ids].
  - unfold ret. rewrite app_nil_r. split; reflexivity.
  - unfold bind. rewrite append_id_eq.
    destruct (entry_id e) as [i|x]; [|split; reflexivity].
    destruct (IH (l ++ [i]) lg) as [Hlog Hres]. split; [exact Hlog|].
    destruct (entry_ids es) as [ids|x]; [|exact Hres].
    rewrite Hres. rewrite <- app_assoc. reflexivity.
Qed.

Lemma get_all_patients_eq limit lg :
  get_all_patients server limit lg
  = let o := get_all_patients_body server limit [] lg in
    (match out_res o with Ok ids => Ok ids | Raise _ => Ok [] end, out_log o).
Proof.
  unfold get_all_patients, with_locals, try_except, ret.
  destruct (get_all_patients_body server limit [] lg) as [[ids|e] l' lg'];
    reflexivity.
Qed.

Lemma get_all_patients_body_log limit l lg :
  out_log (get_all_patients_body server limit l lg) = lg ++ [patients_url limit].
Proof.
  unfold get_all_patients_body, bind, requests_get, raise_for_status,
    response_json, lift, ret, raise, modify_local, get_local.
  generalize (patients_url limit) as u. intros u.
  destruct (server lg u) as [|r]; cbn; [reflexivity|].
  destruct ((400 <=? status_code r) && (status_code r <? 600)); cbn; [reflexivity|].
  destruct (json r) as [data|]; cbn; [|reflexivity].
  destruct (py_in "entry" data) as [[|]|x]; cbn; try reflexivity.
  destruct (py_getitem data "entry") as [entries|x]; cbn; [|reflexivity].
  destruct (py_iter entries) as [seq|x]; cbn; [|reflexivity].
  destruct (for_each_append_id seq [] (lg ++ [u])) as [Hlog _].
  destruct (for_each seq append_id [] (lg ++ [u]))
    as [[[]|x] l' lg']; cbn in *; exact Hlog.
Qed.

Lemma get_all_patients_total limit lg :
  exists ids, get_all_patients server limit lg = (Ok ids, lg ++ [patients_url limit]).
Proof.
  rewrite get_all_patients_eq. cbv zeta. rewrite get_all_patients_body_log.
  destruct (out_res (get_all_patients_body server limit [] lg)) as [ids|e];
    eexists; reflexivity.
Qed.

Lemma get_all_patients_handler limit lg e :
  out_res (get_all_patients_body server limit [] lg) = Raise e ->
  get_all_patients server limit lg = (Ok [], lg ++ [patients_url limit]).
Proof.
  intros H. rewrite get_all_patients_eq. cbv zeta.
  rewrite get_all_patients_body_log, H. reflexivity.
Qed.

(** The result is empty, or the identifiers of all entries of the
    response, in their order. *)
Lemma get_all_patients_shape limit lg ids lg' :
  get_all_patients server limit lg = (Ok ids, lg') ->
  ids = []
  \/ exists r items es,
       server lg (patients_url limit) = GetReturns r
       /\ json r = Some (VDict items)
       /\ dict_get "entry" items = Some (VList es)
       /\ entry_ids es = Ok ids.
Proof.
  rewrite get_all_patients_eq. cbv zeta.
  unfold get_all_patients_body, bind, requests_get, raise_for_status,
    response_json, lift, ret, raise, modify_local, get_local.
  generalize (patients_url limit) as u. intros u.
  destruct (server lg u) as [|r] eqn:Es; cbn;
    [intros H; inversion H; auto|].
  destruct ((400 <=? status_code r) && (status_code r <? 600)); cbn;
    [intros H; inversion H; auto|].
  destruct (json r) as [data|] eqn:Ej; cbn; [|intros H; inversion H; auto].
  destruct (py_in "entry" data) as [[|]|x]; cbn; try (intros H; inversion H; auto; fail).
  destruct data as [| | | | |its|items]; cbn; try (intros H; inversion H; auto; fail).
  destruct (dict_get "entry" items) as [entries|] eqn:Eg; cbn;
    [|intros H; inversion H; auto].
  destruct entries as [| | | |s|es|kvs]; cbn; try (intros H; inversion H; auto; fail).
  - (* a string: every character fails at [entry['resource']] *)
    destruct s as [|c s]; cbn; intros H; inversion H; auto.
  - destruct (for_each_append_id es [] (lg ++ [u])) as [_ Hres].
    destruct (entry_ids es) as [ids'|x] eqn:Ee.
    + rewrite Hres. cbn. intros H. inversion H. subst.
      right. exists r, items, es. auto.
    + destruct (for_each es append_id [] (lg ++ [u]))
        as [[[]|y] l' lg'']; cbn in *; [discriminate|].
      intros H; inversion H; auto.
  - (* a dict: every key fails at [entry['resource']] *)
    destruct kvs as [|[k v] kvs]; cbn; intros H; inversion H; auto.
Qed.


(** *** The scan loop *)

Lemma check_patient_data_total pid lg :
  exists v lg', check_patient_data server py_str pid lg
                = (Ok (has_complete_data v, v), lg').
Proof.
  rewrite check_patient_data_eq. cbv zeta. eexists. eexists. reflexivity.
Qed.

Lemma eval_all_cons pid rest lg b v lg1 :
  check_patient_data server py_str pid lg = (Ok (b, v), lg1) ->
  eval_all server py_str (pid :: rest) lg
  = ((b, v) :: fst (eval_all server py_str rest lg1),
     snd (eval_all server py_str rest lg1)).
Proof.
  intros H. cbn [eval_all]. rewrite H.
  destruct (eval_all server py_str rest lg1); reflexivity.
Qed.

Lemma eval_all_app pre post : forall lg,
  eval_all server py_str (pre ++ post) lg
  = (fst (eval_all server py_str pre lg)
       ++ fst (eval_all server py_str post (snd (eval_all server py_str pre lg))),
     snd (eval_all server py_str post (snd (eval_all server py_str pre lg)))).
Proof.
  induction pre as [|pid pre IH]; intros lg.
  - cbn. destruct (eval_all server py_str post lg); reflexivity.
  - destruct (check_patient_data_total pid lg) as (v & lg1 & Hc).
    rewrite <- app_comm_cons. rewrite !(eval_all_cons _ _ _ _ _ _ Hc).
    rewrite IH. reflexivity.
Qed.

Lemma completes_app rs1 rs2 :
  completes (rs1 ++ rs2) = completes rs1 ++ completes rs2.
Proof. unfold completes. rewrite filter_app, map_app. reflexivity. Qed.

(** The loop evaluates a prefix [pre] of the candidates and nothing else;
    it stops short of the end only with the target reached, and no shorter
    prefix reaches the target. *)
Lemma scan_loop_spec target_count ids : forall cp lg,
  Z.of_nat (List.length cp) < target_count ->
  exists pre post,
    ids = pre ++ post
    /\ scan_loop server py_str target_count ids cp lg
       = mkOut (Ok tt) (cp ++ found server py_str pre lg) (snd (eval_all server py_str pre lg))
    /\ Z.of_nat (List.length (cp ++ found server py_str pre lg)) <= target_count
    /\ (post <> [] -> Z.of_nat (List.length (cp ++ found server py_str pre lg)) = target_count)
    /\ (forall p q, pre = p ++ q -> q <> [] ->
          Z.of_nat (List.length (cp ++ found server py_str p lg)) < target_count).
Proof.
  induction ids as [|pid rest IH]; intros cp lg Hlt.
  - exists [], []. unfold found. cbn. rewrite app_nil_r.
    repeat split; auto; try lia.
    + intros H; contradiction.
    + intros p q Hpq Hq. destruct p; destruct q; try discriminate. contradiction.
  - destruct (check_patient_data_total pid lg) as (v & lg1 & Hc).
    cbn [scan_loop]. unfold bind at 1. unfold call. rewrite Hc.
    destruct (has_complete_data v) eqn:Hv.
    + unfold bind, modify_local, get_local.
      destruct (Z.of_nat (List.length (cp ++ [v])) >=? target_count) eqn:Hge.
      * exists [pid], rest. unfold found.
        rewrite (eval_all_cons _ [] _ _ _ _ Hc). cbn [eval_all fst snd].
        unfold completes. cbn [filter fst map snd].
        rewrite length_app in *. cbn [List.length] in *.
        assert (Hge' : Z.of_nat (List.length cp + 1) >= target_count)
          by (apply Z.geb_le in Hge; lia).
        repeat split; auto; try lia.
        intros p q Hpq Hq. destruct p as [|x p].
        -- cbn. rewrite app_nil_r. exact Hlt.
        -- destruct p; destruct q; try discriminate. contradiction.
      * assert (Hlt' : Z.of_nat (List.length (cp ++ [v])) < target_count).
        { destruct (Z.geb_spec (Z.of_nat (List.length (cp ++ [v]))) target_count);
            [discriminate | lia]. }
        destruct (IH (cp ++ [v]) lg1 Hlt') as (pre & post & Hids & Hrun & Hle & Hpost & Hmin).
        exists (pid :: pre), post.
        assert (Hf : forall p, cp ++ found server py_str (pid :: p) lg = (cp ++ [v]) ++ found server py_str p lg1).
        { intros p. unfold found. rewrite (eval_all_cons _ p _ _ _ _ Hc).
          cbn [fst]. unfold completes. cbn [filter fst map snd].
          rewrite <- app_assoc. reflexivity. }
        rewrite Hf. rewrite (eval_all_cons _ pre _ _ _ _ Hc). cbn [snd].
        repeat split; auto.
        -- rewrite Hids. reflexivity.
        -- intros p q Hpq Hq. destruct p as [|x p].
           ++ unfold found. cbn. rewrite app_nil_r. exact Hlt.
           ++ inversion Hpq; subst. rewrite Hf. eapply Hmin; eauto.
    + destruct (IH cp lg1 Hlt) as (pre & post & Hids & Hrun & Hle & Hpost & Hmin).
      exists (pid :: pre), post.
      assert (Hf : forall p, cp ++ found server py_str (pid :: p) lg = cp ++ found server py_str p lg1).
      { intros p. unfold found. rewrite (eval_all_cons _ p _ _ _ _ Hc).
        cbn [fst]. unfold completes. cbn [filter fst]. reflexivity. }
      rewrite Hf. rewrite (eval_all_cons _ pre _ _ _ _ Hc). cbn [snd].
      repeat split; auto.
      -- rewrite Hids. reflexivity.
      -- intros p q Hpq Hq. destruct p as [|x p].
         ++ unfold found. cbn. rewrite app_nil_r. exact Hlt.
         ++ inversion Hpq; subst. rewrite Hf. eapply Hmin; eauto.
Qed.

(** *** More on the enumerator and the loop *)

Lemma get_all_patients_transport limit lg :
  server lg (patients_url limit) = GetRaises ->
  out_res (get_all_patients_body server limit [] lg) = Raise RequestException.
Proof.
  intros Hs. unfold get_all_patients_body, bind, requests_get. rewrite Hs. reflexivity.
Qed.

Lemma get_all_patients_error_status limit lg r :
  server lg (patients_url limit) = GetReturns r ->
  400 <= status_code r < 600 ->
  out_res (get_all_patients_body server limit [] lg) = Raise HTTPError.
Proof.
  intros Hs Hr. unfold get_all_patients_body, bind, requests_get, raise_for_status.
  rewrite Hs.
  replace ((400 <=? status_code r) && (status_code r <? 600)) with true; [reflexivity|].
  symmetry. apply andb_true_iff. split; [apply Z.leb_le | apply Z.ltb_lt]; lia.
Qed.

Lemma get_all_patients_bad_json limit lg r :
  server lg (patients_url limit) = GetReturns r ->
  json r = None ->
  exists e, out_res (get_all_patients_body server limit [] lg) = Raise e.
Proof.
  intros Hs Hj.
  unfold get_all_patients_body, bind, requests_get, raise_for_status, response_json,
    raise, ret.
  rewrite Hs, Hj.
  destruct ((400 <=? status_code r) && (status_code r <? 600)); eexists; reflexivity.
Qed.

Lemma get_all_patients_wellformed limit lg r items es ids :
  server lg (patients_url limit) = GetReturns r ->
  ~ (400 <= status_code r < 600) ->
  json r = Some (VDict items) ->
  dict_get "entry" items = Some (VList es) ->
  entry_ids es = Ok ids ->
  get_all_patients server limit lg = (Ok ids, lg ++ [patients_url limit]).
Proof.
  intros Hs Hr Hj Hg He. rewrite get_all_patients_eq. cbv zeta.
  rewrite get_all_patients_body_log.
  unfold get_all_patients_body, bind, requests_get, raise_for_status, response_json,
    lift, raise, ret, modify_local, get_local.
  rewrite Hs.
  replace ((400 <=? status_code r) && (status_code r <? 600)) with false.
  2:{ symmetry. apply andb_false_iff.
      destruct (Z.leb_spec 400 (status_code r)); [right; apply Z.ltb_ge; lia | left; reflexivity]. }
  rewrite Hj. cbn [py_in py_getitem]. rewrite Hg. cbn [py_iter].
  destruct (for_each_append_id es [] (lg ++ [patients_url limit])) as [_ Hres].
  rewrite He in Hres. rewrite Hres. reflexivity.
Qed.

Lemma find_complete_patients_eq target_count search_limit lg ids lg1 :
  get_all_patients server search_limit lg = (Ok ids, lg1) ->
  find_complete_patients server py_str target_count search_limit lg
  = let o := scan_loop server py_str target_count ids [] lg1 in
    (match out_res o with Ok _ => Ok (out_locals o) | Raise e => Raise e end,
     out_log o).
Proof.
  intros H. unfold find_complete_patients, with_locals, bind, call, get_local.
  rewrite H. cbv zeta.
  destruct (scan_loop server py_str target_count ids [] lg1) as [[[]|e] cp lg2];
    reflexivity.
Qed.

(** The loop returns normally, whatever the target. *)
Lemma scan_loop_total target_count ids : forall cp lg,
  exists cp' lg',
    scan_loop server py_str target_count ids cp lg = mkOut (Ok tt) cp' lg'.
Proof.
  induction ids as [|pid rest IH]; intros cp lg.
  - eexists. eexists. reflexivity.
  - destruct (check_patient_data_total pid lg) as (v & lg1 & Hc).
    cbn [scan_loop]. unfold bind at 1. unfold call. rewrite Hc.
    destruct (has_complete_data v).
    + unfold bind, modify_local, get_local.
      destruct (Z.of_nat (List.length (cp ++ [v])) >=? target_count).
      * eexists. eexists. reflexivity.
      * apply IH.
    + apply IH.
Qed.

Lemma found_app pre post lg :
  found server py_str (pre ++ post) lg
  = found server py_str pre lg
      ++ found server py_str post (snd (eval_all server py_str pre lg)).
Proof.
  unfold found. rewrite eval_all_app. cbn [fst]. apply completes_app.
Qed.

(** The requests of one evaluation are among [check_urls]. *)
Lemma check_patient_data_requests pid lg r lg' :
  check_patient_data server py_str pid lg = (r, lg') ->
  exists reqs, lg' = lg ++ reqs /\ incl reqs (check_urls py_str pid).
Proof.
  rewrite check_patient_data_eq. cbv zeta. intros H. inversion H as [[Hr Hlg]].
  clear H Hr Hlg.
  destruct (checks_one_request pid) as (R1 & R2 & R3 & R4 & R5).
  generalize (init_status pid) as d. intros d.
  unfold check_body, bind, check_urls.
  pose proof (proj1 (R1 d lg)) as L1.
  destruct (check_demographics server py_str pid d lg) as [[[]|e] d1 lg1];
    cbn [out_log] in *; subst lg1.
  2:{ eexists. split; [reflexivity|]. intros u [<-|[]]. cbn. auto. }
  pose proof (proj1 (R2 d1 (lg ++ [patient_url py_str pid]))) as L2.
  destruct (check_blood_pressure server py_str pid d1 _) as [[[]|e] d2 lg2];
    cbn [out_log] in *; subst lg2; rewrite <- app_assoc.
  2:{ eexists. split; [reflexivity|]. intros u Hu. cbn in *. intuition. }
  pose proof (proj1 (R3 d2 (lg ++ [patient_url py_str pid] ++ [bp_url py_str pid]))) as L3.
  destruct (check_weight server py_str pid d2 _) as [[[]|e] d3 lg3];
    cbn [out_log] in *; subst lg3; rewrite <- app_assoc.
  2:{ eexists. split; [reflexivity|]. intros u Hu. cbn in *. intuition. }
  match goal with |- context [check_height server py_str pid d3 ?l] =>
    pose proof (proj1 (R4 d3 l)) as L4;
    destruct (check_height server py_str pid d3 l) as [[[]|e] d4 lg4] end;
    cbn [out_log] in *; subst lg4; rewrite <- app_assoc.
  2:{ eexists. split; [reflexivity|]. intros u Hu. cbn in *. intuition. }
  match goal with |- context [check_medications server py_str pid d4 ?l] =>
    pose proof (proj1 (R5 d4 l)) as L5;
    destruct (check_medications server py_str pid d4 l) as [[[]|e] d5 lg5] end;
    cbn [out_log] in *; subst lg5; rewrite <- app_assoc.
  2:{ eexists. split; [reflexivity|]. intros u Hu. cbn in *. intuition. }
  cbn [determine_complete out_log]. unfold determine_complete, bind, get_local, modify_local.
  cbn [out_log].
  eexists. split; [reflexivity|]. intros u Hu. cbn in *. intuition.
Qed.

(** *** A check that raises *)

Lemma checks_abort_on_bad_json pid :
  aborts_on_bad_json server (check_demographics server py_str pid) (patient_url py_str pid)
  /\ aborts_on_bad_json server (check_blood_pressure server py_str pid) (bp_url py_str pid)
  /\ aborts_on_bad_json server (check_weight server py_str pid) (weight_url py_str pid)
  /\ aborts_on_bad_json server (check_height server py_str pid) (height_url py_str pid)
  /\ aborts_on_bad_json server (check_medications server py_str pid) (med_url py_str pid).
Proof.
  repeat split; intros d lg r Hs H200 Hj; open_check; rewrite Hs;
    apply Z.eqb_eq in H200; rewrite H200, Hj; reflexivity.
Qed.

Lemma checks_abort_on_scalar_body pid :
  aborts_on_scalar_body server (check_demographics server py_str pid) (patient_url py_str pid)
  /\ aborts_on_scalar_body server (check_blood_pressure server py_str pid) (bp_url py_str pid)
  /\ aborts_on_scalar_body server (check_weight server py_str pid) (weight_url py_str pid)
  /\ aborts_on_scalar_body server (check_height server py_str pid) (height_url py_str pid)
  /\ aborts_on_scalar_body server (check_medications server py_str pid) (med_url py_str pid).
Proof.
  repeat split; intros d lg r body Hs H200 Hj Hb; open_check; rewrite Hs;
    apply Z.eqb_eq in H200; rewrite H200, Hj;
    destruct body; try discriminate Hb; reflexivity.
Qed.

(** Each check writes its own field of [data_status] and no other. *)
Lemma checks_write_own_field pid d lg :
  set_demographics false (out_locals (check_demographics server py_str pid d lg))
  = set_demographics false d
  /\ set_blood_pressure 0 (out_locals (check_blood_pressure server py_str pid d lg))
     = set_blood_pressure 0 d
  /\ set_weight false (out_locals (check_weight server py_str pid d lg))
     = set_weight false d
  /\ set_height false (out_locals (check_height server py_str pid d lg))
     = set_height false d
  /\ set_medications 0 (out_locals (check_medications server py_str pid d lg))
     = set_medications 0 d.
Proof.
  repeat split; open_check; split_outcomes; reflexivity.
Qed.

(** What the verdict is when the check number [k] raises. *)
Lemma raising_check_ends_evaluation pid lg k check url d lgk e :
  nth_error (checks server py_str pid) k = Some (check, url) ->
  run_checks (firstn k (checks server py_str pid)) (init_status pid) lg
  = mkOut (Ok tt) d lgk ->
  out_res (check d lgk) = Raise e ->
  check_patient_data server py_str pid lg = (Ok (false, d), lgk ++ [url])
  /\ id d = pid
  /\ has_complete_data d = false
  /\ ((k <= 0)%nat -> demographics d = false)
  /\ ((k <= 1)%nat -> blood_pressure d = 0)
  /\ ((k <= 2)%nat -> weight d = false)
  /\ ((k <= 3)%nat -> height d = false)
  /\ medications d = 0.
Proof.
  intros Hnth Hrun Hraise.
  destruct (checks_one_request pid) as (R1 & R2 & R3 & R4 & R5).
  assert (W : forall d0 l0,
             forall d1 l1 r1, check_demographics server py_str pid d0 l0 = mkOut r1 d1 l1 ->
               set_demographics false d1 = set_demographics false d0)
    by (intros d0 l0 d1 l1 r1 E;
        pose proof (proj1 (checks_write_own_field pid d0 l0)) as K;
        rewrite E in K; exact K).
  assert (W2 : forall d0 l0 d1 l1 r1,
             check_blood_pressure server py_str pid d0 l0 = mkOut r1 d1 l1 ->
             set_blood_pressure 0 d1 = set_blood_pressure 0 d0)
    by (intros d0 l0 d1 l1 r1 E;
        pose proof (proj1 (proj2 (checks_write_own_field pid d0 l0))) as K;
        rewrite E in K; exact K).
  assert (W3 : forall d0 l0 d1 l1 r1,
             check_weight server py_str pid d0 l0 = mkOut r1 d1 l1 ->
             set_weight false d1 = set_weight false d0)
    by (intros d0 l0 d1 l1 r1 E;
        pose proof (proj1 (proj2 (proj2 (checks_write_own_field pid d0 l0)))) as K;
        rewrite E in K; exact K).
  assert (W4 : forall d0 l0 d1 l1 r1,
             check_height server py_str pid d0 l0 = mkOut r1 d1 l1 ->
             set_height false d1 = set_height false d0)
    by (intros d0 l0 d1 l1 r1 E;
        pose proof (proj1 (proj2 (proj2 (proj2 (checks_write_own_field pid d0 l0))))) as K;
        rewrite E in K; exact K).
  rewrite check_patient_data_eq. cbv zeta. unfold check_body, bind.
  destruct k as [|[|[|[|[|k]]]]]; cbn [nth_error checks] in Hnth;
    [| | | | | destruct k; discriminate Hnth];
    injection Hnth as Hc Hu; subst check url;
    cbn [firstn checks run_checks] in Hrun; unfold bind, ret in Hrun.
  - inversion Hrun; subst d lgk. clear Hrun.
    destruct (R1 (init_status pid) lg) as [Hlog Hkeep].
    destruct (check_demographics server py_str pid (init_status pid) lg)
      as [[[]|e'] d' lg'] eqn:E; cbn in *; [discriminate|].
    rewrite (Hkeep e' eq_refl), Hlog. repeat split; reflexivity.
  - destruct (check_demographics server py_str pid (init_status pid) lg)
      as [[[]|e1] d1 lg1] eqn:E1; [|discriminate].
    inversion Hrun; subst d lgk. clear Hrun.
    pose proof (W _ _ _ _ _ E1) as F1.
    destruct (R2 d1 lg1) as [Hlog Hkeep].
    destruct (check_blood_pressure server py_str pid d1 lg1)
      as [[[]|e'] d' lg'] eqn:E; cbn in *; [discriminate|].
    rewrite (Hkeep e' eq_refl), Hlog.
    inversion F1. destruct d1; cbn in *; subst.
    repeat split; try reflexivity; intros; lia.
  - destruct (check_demographics server py_str pid (init_status pid) lg)
      as [[[]|e1] d1 lg1] eqn:E1; [|discriminate].
    destruct (check_blood_pressure server py_str pid d1 lg1)
      as [[[]|e2] d2 lg2] eqn:E2; [|discriminate].
    inversion Hrun; subst d lgk. clear Hrun.
    pose proof (W _ _ _ _ _ E1) as F1. pose proof (W2 _ _ _ _ _ E2) as F2.
    destruct (R3 d2 lg2) as [Hlog Hkeep].
    destruct (check_weight server py_str pid d2 lg2)
      as [[[]|e'] d' lg'] eqn:E; cbn in *; [discriminate|].
    rewrite (Hkeep e' eq_refl), Hlog.
    inversion F1. inversion F2.
    destruct d1, d2; cbn in *; subst.
    repeat split; try reflexivity; intros; lia.
  - destruct (check_demographics server py_str pid (init_status pid) lg)
      as [[[]|e1] d1 lg1] eqn:E1; [|discriminate].
    destruct (check_blood_pressure server py_str pid d1 lg1)
      as [[[]|e2] d2 lg2] eqn:E2; [|discriminate].
    destruct (check_weight server py_str pid d2 lg2)
      as [[[]|e3] d3 lg3] eqn:E3; [|discriminate].
    inversion Hrun; subst d lgk. clear Hrun.
    pose proof (W _ _ _ _ _ E1) as F1. pose proof (W2 _ _ _ _ _ E2) as F2.
    pose proof (W3 _ _ _ _ _ E3) as F3.
    destruct (R4 d3 lg3) as [Hlog Hkeep].
    destruct (check_height server py_str pid d3 lg3)
      as [[[]|e'] d' lg'] eqn:E; cbn in *; [discriminate|].
    rewrite (Hkeep e' eq_refl), Hlog.
    inversion F1. inversion F2. inversion F3.
    destruct d1, d2, d3; cbn in *; subst.
    repeat split; try reflexivity; intros; lia.
  - destruct (check_demographics server py_str pid (init_status pid) lg)
      as [[[]|e1] d1 lg1] eqn:E1; [|discriminate].
    destruct (check_blood_pressure server py_str pid d1 lg1)
      as [[[]|e2] d2 lg2] eqn:E2; [|discriminate].
    destruct (check_weight server py_str pid d2 lg2)
      as [[[]|e3] d3 lg3] eqn:E3; [|discriminate].
    destruct (check_height server py_str pid d3 lg3)
      as [[[]|e4] d4 lg4] eqn:E4; [|discriminate].
    inversion Hrun; subst d lgk. clear Hrun.
    pose proof (W _ _ _ _ _ E1) as F1. pose proof (W2 _ _ _ _ _ E2) as F2.
    pose proof (W3 _ _ _ _ _ E3) as F3. pose proof (W4 _ _ _ _ _ E4) as F4.
    destruct (R5 d4 lg4) as [Hlog Hkeep].
    destruct (check_medications server py_str pid d4 lg4)
      as [[[]|e'] d' lg'] eqn:E; cbn in *; [discriminate|].
    rewrite (Hkeep e' eq_refl), Hlog.
    inversion F1. inversion F2. inversion F3. inversion F4.
    destruct d1, d2, d3, d4; cbn in *; subst.
    repeat split; try reflexivity; intros; lia.
Qed.

(** ** The evaluator: claims *)

(** C10.  Whatever the remote fetches do, [check_patient_data] returns a
    pair; its first component is the [has_complete_data] field of the
    returned verdict, and the verdict's [id] is the input [patient_id]. *)
Theorem check_patient_data_returns_flag_and_id :
  forall (patient_id : value) (lg : Log),
  exists v lg',
    check_patient_data server py_str patient_id lg
    = (Ok (has_complete_data v, v), lg')
    /\ id v = patient_id.
Proof.
  intros pid lg. rewrite check_patient_data_eq. cbv zeta.
  eexists. eexists. split; [reflexivity|].
  rewrite (check_body_preserves_id pid). reflexivity.
Qed.

(** C2, as the script has it.  In every verdict [has_complete_data]
    implies that the four required fields are present; when no check
    raised it equals their conjunction, whatever the medication count;
    when a check raised it is false. *)
Theorem has_complete_data_of_verdict :
  forall (patient_id : value) (lg : Log) (b : bool) (v : data_status) (lg' : Log),
    check_patient_data server py_str patient_id lg = (Ok (b, v), lg') ->
    (has_complete_data v = true -> required_present v = true)
    /\ (out_res (check_body server py_str patient_id (init_status patient_id) lg) = Ok tt ->
        has_complete_data v
        = demographics v && (0 <? blood_pressure v) && weight v && height v)
    /\ (forall e,
          out_res (check_body server py_str patient_id (init_status patient_id) lg) = Raise e ->
          has_complete_data v = false)
    /\ (forall n, required_present (set_medications n v) = required_present v).
Proof.
  intros pid lg b v lg' H. rewrite check_patient_data_eq in H. cbv zeta in H.
  inversion H as [[Hb Hv Hlg]]. clear H Hb Hlg.
  pose proof (check_body_ends_well pid (init_status pid) lg) as He.
  unfold ends_well in He.
  destruct (out_res (check_body server py_str pid (init_status pid) lg))
    as [[]|e]; cbn [init_status has_complete_data] in He.
  - split; [congruence|]. split; [intros _; exact He|].
    split; [intros e He'; discriminate | reflexivity].
  - split; [congruence|]. split; [intros He'; discriminate|].
    split; [intros e' _; exact He | reflexivity].
Qed.

(** C1, as the script has it.  No exception leaves the evaluator.  A
    status other than 200 in a check degrades only that check's field and
    the next checks still run; when no check raises, the verdict is the
    one of the isolated evaluator.  A check that raises ends the
    evaluation: when the blood-pressure request fails in transport after
    the demographics check, the verdict keeps the demographics field, has
    [blood_pressure = 0], [has_complete_data = false] and the weight,
    height and medication fields at their defaults, and no further request
    is made.  The same holds for each of the five checks and for every
    exception: when the check number [k] raises after the checks before it
    have returned, the verdict is the [data_status] those checks have left,
    with the field of check [k] and of every later check at its default and
    [has_complete_data = false], and the request of check [k] is the last
    one made.  Each check writes its own field only.  A request that fails
    in transport, a body that [json()] rejects and a scalar body each make
    the check raise. *)
Theorem failure_handling_of_checks :
  forall (patient_id : value) (lg : Log),
    (exists v lg',
        check_patient_data server py_str patient_id lg
        = (Ok (has_complete_data v, v), lg'))
    /\ (skips_on_status server (check_demographics server py_str patient_id)
                        (patient_url py_str patient_id)
        /\ skips_on_status server (check_blood_pressure server py_str patient_id)
                           (bp_url py_str patient_id)
        /\ skips_on_status server (check_weight server py_str patient_id)
                           (weight_url py_str patient_id)
        /\ skips_on_status server (check_height server py_str patient_id)
                           (height_url py_str patient_id)
        /\ skips_on_status server (check_medications server py_str patient_id)
                           (med_url py_str patient_id))
    /\ (out_res (check_body server py_str patient_id (init_status patient_id) lg) = Ok tt ->
        check_patient_data server py_str patient_id lg
        = check_patient_data_isolated server py_str patient_id lg)
    /\ (forall d1 lg1,
          check_demographics server py_str patient_id (init_status patient_id) lg
          = mkOut (Ok tt) d1 lg1 ->
          server lg1 (bp_url py_str patient_id) = GetRaises ->
          check_patient_data server py_str patient_id lg
          = (Ok (false, d1), lg1 ++ [bp_url py_str patient_id])
          /\ d1 = mkStatus patient_id (demographics d1) 0 false false 0 false)
    /\ (forall k check url d lgk e,
          nth_error (checks server py_str patient_id) k = Some (check, url) ->
          run_checks (firstn k (checks server py_str patient_id))
                     (init_status patient_id) lg
          = mkOut (Ok tt) d lgk ->
          out_res (check d lgk) = Raise e ->
          check_patient_data server py_str patient_id lg
          = (Ok (false, d), lgk ++ [url])
          /\ id d = patient_id
          /\ has_complete_data d = false
          /\ ((k <= 0)%nat -> demographics d = false)
          /\ ((k <= 1)%nat -> blood_pressure d = 0)
          /\ ((k <= 2)%nat -> weight d = false)
          /\ ((k <= 3)%nat -> height d = false)
          /\ medications d = 0)
    /\ (forall d l,
          set_demographics false
            (out_locals (check_demographics server py_str patient_id d l))
          = set_demographics false d
          /\ set_blood_pressure 0
               (out_locals (check_blood_pressure server py_str patient_id d l))
             = set_blood_pressure 0 d
          /\ set_weight false
               (out_locals (check_weight server py_str patient_id d l))
             = set_weight false d
          /\ set_height false
               (out_locals (check_height server py_str patient_id d l))
             = set_height false d
          /\ set_medications 0
               (out_locals (check_medications server py_str patient_id d l))
             = set_medications 0 d)
    /\ (forall check url,
          In (check, url) (checks server py_str patient_id) ->
          aborts_on_transport server check url
          /\ aborts_on_bad_json server check url
          /\ aborts_on_scalar_body server check url
          /\ one_request check url).
Proof.
  intros pid lg. split; [apply check_patient_data_total|].
  split; [apply checks_skip_on_status|].
  split; [apply no_raise_same_as_isolated|].
  split; [intros d1 lg1; apply bp_transport_failure|].
  split; [intros k check url d lgk e; apply raising_check_ends_evaluation|].
  split; [intros d l; apply checks_write_own_field|].
  intros check url Hin.
  destruct (checks_abort_on_transport pid) as (A1 & A2 & A3 & A4 & A5).
  destruct (checks_abort_on_bad_json pid) as (J1 & J2 & J3 & J4 & J5).
  destruct (checks_abort_on_scalar_body pid) as (S1 & S2 & S3 & S4 & S5).
  destruct (checks_one_request pid) as (R1 & R2 & R3 & R4 & R5).
  unfold checks in Hin. cbn [In] in Hin.
  destruct Hin as [H|[H|[H|[H|[H|[]]]]]]; injection H as <- <-; auto.
Qed.

(** C9.  The [blood_pressure] field of the verdict is the number of
    entries of the observation response when the blood-pressure fetch
    returns status 200 with a body that has an [entry] list (in general,
    [len] of the [entry] value); it is 0 when the body has no [entry],
    when the status is not 200, and when the check fails (in transport, in
    [json()], or anywhere else), as well as when the evaluation ended
    before the blood-pressure check. *)
Theorem blood_pressure_field :
  forall (patient_id : value) (lg : Log) (b : bool) (v : data_status) (lg' : Log),
    check_patient_data server py_str patient_id lg = (Ok (b, v), lg') ->
    (forall e,
        out_res (check_demographics server py_str patient_id (init_status patient_id) lg)
        = Raise e ->
        blood_pressure v = 0)
    /\ (forall d1 lg1,
          check_demographics server py_str patient_id (init_status patient_id) lg
          = mkOut (Ok tt) d1 lg1 ->
          (forall r items es,
              server lg1 (bp_url py_str patient_id) = GetReturns r ->
              status_code r = 200 ->
              json r = Some (VDict items) ->
              dict_get "entry" items = Some (VList es) ->
              blood_pressure v = Z.of_nat (List.length es))
          /\ (forall r items x n,
                server lg1 (bp_url py_str patient_id) = GetReturns r ->
                status_code r = 200 ->
                json r = Some (VDict items) ->
                dict_get "entry" items = Some x ->
                py_len x = Ok n ->
                blood_pressure v = n)
          /\ (forall r items,
                server lg1 (bp_url py_str patient_id) = GetReturns r ->
                status_code r = 200 ->
                json r = Some (VDict items) ->
                dict_get "entry" items = None ->
                blood_pressure v = 0)
          /\ (forall r body,
                server lg1 (bp_url py_str patient_id) = GetReturns r ->
                status_code r = 200 ->
                json r = Some body ->
                py_in "entry" body = Ok false ->
                blood_pressure v = 0)
          /\ (forall r,
                server lg1 (bp_url py_str patient_id) = GetReturns r ->
                status_code r <> 200 ->
                blood_pressure v = 0)
          /\ (server lg1 (bp_url py_str patient_id) = GetRaises ->
              blood_pressure v = 0)
          /\ (forall r,
                server lg1 (bp_url py_str patient_id) = GetReturns r ->
                status_code r = 200 ->
                json r = None ->
                blood_pressure v = 0)
          /\ (forall e,
                out_res (check_blood_pressure server py_str patient_id d1 lg1) = Raise e ->
                blood_pressure v = 0)).
Proof.
  intros pid lg b v lg' H. rewrite check_patient_data_eq in H. cbv zeta in H.
  inversion H as [[Hb Hv Hlg]]. clear H Hb Hlg.
  split.
  - intros e He. eapply bp_field_when_demographics_raises; eauto.
  - intros d1 lg1 H1.
    destruct (bp_field_after_check pid lg d1 lg1 H1) as [Hbp H0].
    rewrite Hbp. clear Hbp.
    destruct (checks_one_request pid) as (_ & R2 & _).
    destruct (checks_skip_on_status pid) as (_ & S2 & _).
    destruct (checks_abort_on_transport pid) as (_ & A2 & _).
    repeat split.
    + intros r items es Hs H200 Hj Hg. open_check. rewrite Hs.
      apply Z.eqb_eq in H200. rewrite H200, Hj. cbn. rewrite Hg. cbn. reflexivity.
    + intros r items x n Hs H200 Hj Hg Hn. open_check. rewrite Hs.
      apply Z.eqb_eq in H200. rewrite H200, Hj. cbn. rewrite Hg. cbn.
      rewrite Hn. reflexivity.
    + intros r items Hs H200 Hj Hg. open_check. rewrite Hs.
      apply Z.eqb_eq in H200. rewrite H200, Hj. cbn. rewrite Hg. cbn. exact H0.
    + intros r body Hs H200 Hj Hin. open_check. rewrite Hs.
      apply Z.eqb_eq in H200. rewrite H200, Hj, Hin. exact H0.
    + intros r Hs Hne. rewrite (S2 d1 lg1 r Hs Hne). exact H0.
    + intros Hs. rewrite (A2 d1 lg1 Hs). exact H0.
    + intros r Hs H200 Hj. open_check. rewrite Hs.
      apply Z.eqb_eq in H200. rewrite H200, Hj. cbn. exact H0.
    + intros e He. destruct (R2 d1 lg1) as [_ K]. rewrite (K e He). exact H0.
Qed.

(** ** The enumerator: claims *)

(** C7, as the script has it.  [get_all_patients] never raises.  It
    returns the empty list when the request fails in transport, when the
    status is a 4xx or 5xx one (the statuses [raise_for_status] rejects),
    when [json()] fails, and whenever anything else in its [try] body
    raises, such as a subscript on a body of the wrong shape.  Any other
    status, a 1xx or 3xx one included, is not a failure: the identifiers of
    the entries of a well-formed body are returned. *)
Theorem enumeration_failures_give_empty :
  forall (limit : Z) (lg : Log),
    (exists ids,
        get_all_patients server limit lg = (Ok ids, lg ++ [patients_url limit]))
    /\ (server lg (patients_url limit) = GetRaises ->
        get_all_patients server limit lg = (Ok [], lg ++ [patients_url limit]))
    /\ (forall r,
          server lg (patients_url limit) = GetReturns r ->
          400 <= status_code r < 600 ->
          get_all_patients server limit lg = (Ok [], lg ++ [patients_url limit]))
    /\ (forall r,
          server lg (patients_url limit) = GetReturns r ->
          json r = None ->
          get_all_patients server limit lg = (Ok [], lg ++ [patients_url limit]))
    /\ (forall e,
          out_res (get_all_patients_body server limit [] lg) = Raise e ->
          get_all_patients server limit lg = (Ok [], lg ++ [patients_url limit]))
    /\ (forall r items es ids,
          server lg (patients_url limit) = GetReturns r ->
          ~ (400 <= status_code r < 600) ->
          json r = Some (VDict items) ->
          dict_get "entry" items = Some (VList es) ->
          entry_ids es = Ok ids ->
          get_all_patients server limit lg = (Ok ids, lg ++ [patients_url limit])).
Proof.
  intros limit lg. split; [apply get_all_patients_total|].
  split.
  { intros Hs. eapply get_all_patients_handler.
    apply get_all_patients_transport. exact Hs. }
  split.
  { intros r Hs Hr. eapply get_all_patients_handler.
    eapply get_all_patients_error_status; eauto. }
  split.
  { intros r Hs Hj. destruct (get_all_patients_bad_json limit lg r Hs Hj) as [e He].
    eapply get_all_patients_handler. exact He. }
  split.
  { intros e He. eapply get_all_patients_handler. exact He. }
  intros r items es ids. apply get_all_patients_wellformed.
Qed.

(** C8, as the script has it.  [get_all_patients] returns either the empty
    list or the identifiers of all entries of the response, in the order
    of the response; a well-formed response gives exactly those.  The
    script does not cut the list: the result has at most [limit]
    identifiers when the response has at most [limit] entries. *)
Theorem enumeration_order_and_length :
  forall (limit : Z) (lg : Log),
    0 <= limit ->
    exists ids,
      get_all_patients server limit lg = (Ok ids, lg ++ [patients_url limit])
      /\ (ids = []
          \/ exists r items es,
               server lg (patients_url limit) = GetReturns r
               /\ json r = Some (VDict items)
               /\ dict_get "entry" items = Some (VList es)
               /\ Forall2 (fun entry i => entry_id entry = Ok i) es ids)
      /\ (forall r items es ids',
            server lg (patients_url limit) = GetReturns r ->
            ~ (400 <= status_code r < 600) ->
            json r = Some (VDict items) ->
            dict_get "entry" items = Some (VList es) ->
            entry_ids es = Ok ids' ->
            ids = ids')
      /\ ((forall r items es,
              server lg (patients_url limit) = GetReturns r ->
              json r = Some (VDict items) ->
              dict_get "entry" items = Some (VList es) ->
              Z.of_nat (List.length es) <= limit) ->
          Z.of_nat (List.length ids) <= limit).
Proof.
  intros limit lg Hlimit.
  destruct (get_all_patients_total limit lg) as [ids Hget].
  exists ids. split; [exact Hget|].
  pose proof (get_all_patients_shape limit lg ids _ Hget) as Hshape.
  split; [|split].
  - destruct Hshape as [->|(r & items & es & Hs & Hj & Hg & He)]; [left; reflexivity|].
    right. exists r, items, es. repeat split; auto. apply entry_ids_Forall2. exact He.
  - intros r items es ids' Hs Hr Hj Hg He.
    pose proof (get_all_patients_wellformed limit lg r items es ids' Hs Hr Hj Hg He) as H.
    congruence.
  - intros Hbound.
    destruct Hshape as [->|(r & items & es & Hs & Hj & Hg & He)]; [cbn; lia|].
    specialize (Hbound r items es Hs Hj Hg).
    apply entry_ids_Forall2, Forall2_length in He. lia.
Qed.

(** ** The scan controller: claims *)

(** C3.  With [target_count >= 1], the controller evaluates a prefix
    [pre] of the enumerated candidates and makes no request beyond those
    of that prefix.  It stops short of the end of the sequence only with
    [target_count] complete verdicts accumulated, and it stops as soon as
    they are: no shorter prefix has that many, and every prefix that has
    them contains [pre], so that no candidate after it is evaluated. *)
Theorem early_exit :
  forall (target_count search_limit : Z) (lg : Log) (ids : list value) (lg1 : Log),
    1 <= target_count ->
    get_all_patients server search_limit lg = (Ok ids, lg1) ->
    exists pre post,
      ids = pre ++ post
      /\ find_complete_patients server py_str target_count search_limit lg
         = (Ok (found server py_str pre lg1), snd (eval_all server py_str pre lg1))
      /\ (post <> [] ->
          Z.of_nat (List.length (found server py_str pre lg1)) = target_count)
      /\ (forall p q, pre = p ++ q -> q <> [] ->
            Z.of_nat (List.length (found server py_str p lg1)) < target_count)
      /\ (forall p q, ids = p ++ q ->
            target_count <= Z.of_nat (List.length (found server py_str p lg1)) ->
            exists q', p = pre ++ q').
Proof.
  intros tc sl lg ids lg1 Htc Hget.
  destruct (scan_loop_spec tc ids [] lg1) as (pre & post & Hids & Hrun & _ & Hpost & Hmin);
    [cbn; lia|].
  cbn [app] in *.
  exists pre, post. split; [exact Hids|].
  split.
  { rewrite (find_complete_patients_eq tc sl lg ids lg1 Hget). cbv zeta.
    rewrite Hrun. reflexivity. }
  split; [exact Hpost|]. split; [exact Hmin|].
  intros p q Hpq Hreach. rewrite Hids in Hpq.
  destruct (app_eq_app _ _ _ _ Hpq) as [l [[Hp Hq]|[Hp Hq]]].
  - destruct l as [|x l].
    + exists []. rewrite app_nil_r in *. symmetry. exact Hp.
    + specialize (Hmin p (x :: l) Hp ltac:(discriminate)). lia.
  - exists l. exact Hp.
Qed.

(** C4.  With [target_count >= 1], the controller returns, and returns at
    most [target_count] verdicts. *)
Theorem at_most_target_count :
  forall (target_count search_limit : Z) (lg : Log),
    1 <= target_count ->
    exists result lg',
      find_complete_patients server py_str target_count search_limit lg
      = (Ok result, lg')
      /\ Z.of_nat (List.length result) <= target_count.
Proof.
  intros tc sl lg Htc.
  destruct (get_all_patients_total sl lg) as [ids Hget].
  destruct (scan_loop_spec tc ids [] (lg ++ [patients_url sl]))
    as (pre & post & Hids & Hrun & Hle & _); [cbn; lia|].
  rewrite (find_complete_patients_eq tc sl lg ids _ Hget). cbv zeta.
  rewrite Hrun. cbn [out_res out_locals out_log].
  eexists. eexists. split; [reflexivity|]. exact Hle.
Qed.

(** C5.  When the enumerator returns ["p1"; "p2"; "p3"], the evaluator
    finds "p1" incomplete and "p2" complete, and [target_count = 1], the
    controller returns exactly the verdict of "p2", stops with the log of
    that evaluation, and has made no request about "p3". *)
Theorem scan_stops_at_p2 :
  forall (search_limit : Z) (lg0 lg1 lg2 lg3 : Log) (v1 v2 : data_status),
    get_all_patients server search_limit lg0
    = (Ok [VStr "p1"; VStr "p2"; VStr "p3"], lg1) ->
    check_patient_data server py_str (VStr "p1") lg1 = (Ok (false, v1), lg2) ->
    check_patient_data server py_str (VStr "p2") lg2 = (Ok (true, v2), lg3) ->
    find_complete_patients server py_str 1 search_limit lg0 = (Ok [v2], lg3)
    /\ exists reqs,
         lg3 = lg0 ++ reqs
         /\ forall u, In u reqs -> ~ In u (check_urls py_str (VStr "p3")).
Proof.
  intros sl lg0 lg1 lg2 lg3 v1 v2 Hget H1 H2. split.
  - rewrite (find_complete_patients_eq 1 sl lg0 _ lg1 Hget). cbv zeta.
    cbn [scan_loop]. unfold bind, call, modify_local, get_local.
    rewrite H1, H2. reflexivity.
  - destruct (get_all_patients_total sl lg0) as [ids Hget'].
    rewrite Hget in Hget'. inversion Hget' as [[Hids Hlg1]]. clear Hget' Hids.
    destruct (check_patient_data_requests _ _ _ _ H1) as (r1 & Hr1 & I1).
    destruct (check_patient_data_requests _ _ _ _ H2) as (r2 & Hr2 & I2).
    exists ([patients_url sl] ++ r1 ++ r2). split.
    + rewrite Hr2, Hr1, Hlg1. rewrite <- !app_assoc. reflexivity.
    + intros u Hu Hp3. apply in_app_or in Hu. destruct Hu as [Hu|Hu].
      * destruct Hu as [<-|[]]. unfold patients_url, check_urls in Hp3.
        cbn in Hp3. intuition discriminate.
      * apply in_app_or in Hu. destruct Hu as [Hu|Hu]; [apply I1 in Hu|apply I2 in Hu];
          unfold check_urls in *; cbn in Hu, Hp3;
          intuition (subst; discriminate).
Qed.

(** C6.  The controller always returns normally.  When all enumerated
    candidates together have fewer than [target_count] complete verdicts,
    it evaluates them all and returns those verdicts; when the enumerator
    returns no candidate, the result is empty and the only request made is
    the enumerator's. *)
Theorem exhausted_search :
  forall (target_count search_limit : Z) (lg : Log),
    (exists result lg',
        find_complete_patients server py_str target_count search_limit lg
        = (Ok result, lg'))
    /\ (forall ids lg1,
          get_all_patients server search_limit lg = (Ok ids, lg1) ->
          Z.of_nat (List.length (found server py_str ids lg1)) < target_count ->
          find_complete_patients server py_str target_count search_limit lg
          = (Ok (found server py_str ids lg1), snd (eval_all server py_str ids lg1)))
    /\ (forall lg1,
          get_all_patients server search_limit lg = (Ok [], lg1) ->
          find_complete_patients server py_str target_count search_limit lg
          = (Ok [], lg ++ [patients_url search_limit])).
Proof.
  intros tc sl lg. split; [|split].
  - destruct (get_all_patients_total sl lg) as [ids Hget].
    rewrite (find_complete_patients_eq tc sl lg ids _ Hget). cbv zeta.
    destruct (scan_loop_total tc ids [] (lg ++ [patients_url sl])) as (cp & lg' & Hrun).
    rewrite Hrun. eexists. eexists. reflexivity.
  - intros ids lg1 Hget Hfew.
    destruct (scan_loop_spec tc ids [] lg1) as (pre & post & Hids & Hrun & _ & Hpost & _);
      [cbn; lia|].
    cbn [app] in *.
    rewrite (find_complete_patients_eq tc sl lg ids lg1 Hget). cbv zeta.
    rewrite Hrun. cbn [out_res out_locals out_log].
    assert (Hnil : post = []).
    { destruct post as [|x post]; [reflexivity|]. exfalso.
      specialize (Hpost ltac:(discriminate)).
      rewrite Hids, found_app, length_app in Hfew. lia. }
    subst post. rewrite app_nil_r in Hids. subst pre. reflexivity.
  - intros lg1 Hget.
    destruct (get_all_patients_total sl lg) as [ids Hget'].
    rewrite Hget in Hget'. inversion Hget' as [[Hids Hlg1]].
    rewrite (find_complete_patients_eq tc sl lg [] lg1 Hget). cbv zeta.
    cbn [scan_loop]. unfold ret. cbn [out_res out_locals out_log].
    rewrite Hlg1. reflexivity.
Qed.

End Facts.

(** ** The script on concrete servers *)

(** *** Runs *)

Example three_enumeration :
  get_all_patients srv_three 200 []
  = (Ok [VStr "p1"; VStr "p2"; VStr "p3"], [patients_url 200]).
Proof. vm_compute. reflexivity. Qed.

Example three_p1_run :
  check_patient_data srv_three no_str (VStr "p1") [patients_url 200]
  = (Ok (false, mkStatus (VStr "p1") false 0 false false 0 false),
     [patients_url 200] ++ check_urls no_str (VStr "p1")).
Proof. vm_compute. reflexivity. Qed.

Example three_p2_run :
  check_patient_data srv_three no_str (VStr "p2")
    ([patients_url 200] ++ check_urls no_str (VStr "p1"))
  = (Ok (true, mkStatus (VStr "p2") true 2 true true 2 true),
     [patients_url 200] ++ check_urls no_str (VStr "p1")
       ++ check_urls no_str (VStr "p2")).
Proof. vm_compute. reflexivity. Qed.

Example bp_down_run :
  check_patient_data srv_bp_down no_str (VStr "p1") []
  = (Ok (false, mkStatus (VStr "p1") true 0 false false 0 false),
     [patient_url no_str (VStr "p1"); bp_url no_str (VStr "p1")]).
Proof. vm_compute. reflexivity. Qed.

Example bp_down_isolated_run :
  check_patient_data_isolated srv_bp_down no_str (VStr "p1") []
  = (Ok (false, mkStatus (VStr "p1") true 0 true true 2 false),
     check_urls no_str (VStr "p1")).
Proof. vm_compute. reflexivity. Qed.

Example med_down_run :
  check_patient_data srv_med_down no_str (VStr "p1") []
  = (Ok (false, mkStatus (VStr "p1") true 2 true true 0 false),
     check_urls no_str (VStr "p1")).
Proof. vm_compute. reflexivity. Qed.

Example status_300_run :
  get_all_patients srv_status_300 50 [] = (Ok [VStr "p1"], [patients_url 50]).
Proof. vm_compute. reflexivity. Qed.

Example two_entries_run :
  get_all_patients srv_two 1 [] = (Ok [VStr "p1"; VStr "p2"], [patients_url 1]).
Proof. vm_compute. reflexivity. Qed.

Example bodies_are_dicts :
  forallb wf_value
    [bundle [patient_entry "p1"; patient_entry "p2"; patient_entry "p3"];
     bundle [observation; observation]; empty_bundle; patient_record] = true.
Proof. vm_compute. reflexivity. Qed.

(** *** Where the script departs from the specification *)

(** C1 fails on the script: with the blood-pressure request failing in
    transport, the weight, height and medication checks are not run, and
    the verdict differs from the one of the isolated evaluator, which
    reports weight, height and two medication requests. *)
Lemma later_checks_not_isolated :
  ~ (forall server py_str, checks_are_isolated server py_str).
Proof.
  intros H. specialize (H srv_bp_down no_str (VStr "p1") []).
  rewrite bp_down_run, bp_down_isolated_run in H. discriminate H.
Qed.

(** C2 fails on the script: with the medication request failing in
    transport, the verdict has the four required fields present and
    [has_complete_data = false]. *)
Lemma complete_flag_not_conjunction :
  ~ (forall server py_str patient_id lg b v lg',
        check_patient_data server py_str patient_id lg = (Ok (b, v), lg') ->
        has_complete_data v
        = demographics v && (0 <? blood_pressure v) && weight v && height v).
Proof.
  intros H. pose proof (H _ _ _ _ _ _ _ med_down_run) as K.
  vm_compute in K. discriminate K.
Qed.

(** C7 fails on the script: a response with status 300, which is not a
    2xx status, and a bundle as body gives a non-empty result. *)
Lemma non_2xx_status_not_empty :
  ~ (forall server limit lg r,
        server lg (patients_url limit) = GetReturns r ->
        ~ (200 <= status_code r < 300) ->
        get_all_patients server limit lg = (Ok [], lg ++ [patients_url limit])).
Proof.
  intros H.
  specialize (H srv_status_300 50 [] _ eq_refl).
  rewrite status_300_run in H.
  assert (K : (Ok [VStr "p1"], [patients_url 50])
              = (@Ok (list value) [], [] ++ [patients_url 50])).
  { apply H. cbn [status_code]. lia. }
  discriminate K.
Qed.

(** C8 fails on the script: asked for at most one patient, a server that
    sends two entries gets both identifiers returned. *)
Lemma longer_than_limit :
  ~ (forall server limit lg ids lg',
        0 <= limit ->
        get_all_patients server limit lg = (Ok ids, lg') ->
        Z.of_nat (List.length ids) <= limit).
Proof.
  intros H. pose proof (H srv_two 1 [] _ _ ltac:(lia) two_entries_run) as K.
  cbn in K. lia.
Qed.

(** *** The theorems at work *)

(** [failure_handling_of_checks] on the server whose blood-pressure
    request fails, and, for the comparison with the isolated evaluator, on
    a patient none of whose checks raises. *)
Lemma failure_handling_of_checks_witness :
  check_patient_data srv_bp_down no_str (VStr "p1") []
  = (Ok (false, mkStatus (VStr "p1") true 0 false false 0 false),
     [patient_url no_str (VStr "p1")] ++ [bp_url no_str (VStr "p1")])
  /\ check_patient_data srv_three no_str (VStr "p2") []
     = check_patient_data_isolated srv_three no_str (VStr "p2") []
  /\ check_patient_data srv_weight_garbled no_str (VStr "p1") []
     = (Ok (false, mkStatus (VStr "p1") true 2 false false 0 false),
        [patient_url no_str (VStr "p1"); bp_url no_str (VStr "p1")]
          ++ [weight_url no_str (VStr "p1")]).
Proof.
  split; [|split].
  - destruct (failure_handling_of_checks srv_bp_down no_str (VStr "p1") [])
      as (_ & _ & _ & H & _).
    destruct (H (mkStatus (VStr "p1") true 0 false false 0 false)
                [patient_url no_str (VStr "p1")]) as [H1 _].
    + vm_compute. reflexivity.
    + vm_compute. reflexivity.
    + exact H1.
  - destruct (failure_handling_of_checks srv_three no_str (VStr "p2") [])
      as (_ & _ & H & _).
    apply H. vm_compute. reflexivity.
  - destruct (failure_handling_of_checks srv_weight_garbled no_str (VStr "p1") [])
      as (_ & _ & _ & _ & H & _).
    destruct (H 2%nat (check_weight srv_weight_garbled no_str (VStr "p1"))
                (weight_url no_str (VStr "p1"))
                (mkStatus (VStr "p1") true 2 false false 0 false)
                [patient_url no_str (VStr "p1"); bp_url no_str (VStr "p1")]
                JSONDecodeError) as [H1 _].
    + reflexivity.
    + vm_compute. reflexivity.
    + vm_compute. reflexivity.
    + exact H1.
Defined.

Lemma has_complete_data_of_verdict_witness :
  has_complete_data (mkStatus (VStr "p2") true 2 true true 2 true) = true
  /\ required_present (mkStatus (VStr "p2") true 2 true true 2 true) = true.
Proof.
  destruct (has_complete_data_of_verdict srv_three no_str (VStr "p2")
              ([patients_url 200] ++ check_urls no_str (VStr "p1"))
              true (mkStatus (VStr "p2") true 2 true true 2 true) _ three_p2_run)
    as (H & _).
  split; [reflexivity | apply H; reflexivity].
Defined.

Lemma blood_pressure_field_witness :
  blood_pressure (mkStatus (VStr "p2") true 2 true true 2 true)
  = Z.of_nat (List.length [observation; observation]).
Proof.
  destruct (blood_pressure_field srv_three no_str (VStr "p2")
              ([patients_url 200] ++ check_urls no_str (VStr "p1"))
              true (mkStatus (VStr "p2") true 2 true true 2 true) _ three_p2_run)
    as (_ & H).
  destruct (H (mkStatus (VStr "p2") true 0 false false 0 false)
              ([patients_url 200] ++ check_urls no_str (VStr "p1")
                 ++ [patient_url no_str (VStr "p2")])) as (H1 & _).
  - vm_compute. reflexivity.
  - apply (H1 (mkResponse 200 (Some (bundle [observation; observation])))
              [("resourceType", VStr "Bundle");
               ("entry", VList [observation; observation])]).
    + vm_compute. reflexivity.
    + reflexivity.
    + reflexivity.
    + reflexivity.
Defined.

Lemma enumeration_failures_give_empty_witness :
  get_all_patients srv_unavailable 50 [] = (Ok [], [] ++ [patients_url 50]).
Proof.
  destruct (enumeration_failures_give_empty srv_unavailable 50 [])
    as (_ & _ & H & _).
  apply (H (mkResponse 503 None)).
  - reflexivity.
  - cbn [status_code]. lia.
Defined.

Lemma enumeration_order_and_length_witness :
  exists ids,
    get_all_patients srv_two 2 [] = (Ok ids, [] ++ [patients_url 2])
    /\ Z.of_nat (List.length ids) <= 2.
Proof.
  destruct (enumeration_order_and_length srv_two 2 [] ltac:(lia))
    as (ids & Hget & _ & _ & Hlen).
  exists ids. split; [exact Hget|]. apply Hlen.
  intros r items es Hs Hj Hg. unfold srv_two, ok in Hs.
  inversion Hs as [Hr]. subst r. cbn [json] in Hj.
  inversion Hj as [Hi]. subst items. cbn in Hg.
  inversion Hg as [He]. cbn. lia.
Defined.

Lemma early_exit_witness :
  exists pre post,
    [VStr "p1"; VStr "p2"; VStr "p3"] = pre ++ post
    /\ find_complete_patients srv_three no_str 1 200 []
       = (Ok (found srv_three no_str pre [patients_url 200]),
          snd (eval_all srv_three no_str pre [patients_url 200])).
Proof.
  destruct (early_exit srv_three no_str 1 200 [] _ _ ltac:(lia) three_enumeration)
    as (pre & post & Hids & Hrun & _).
  exists pre, post. split; [exact Hids | exact Hrun].
Defined.

Lemma at_most_target_count_witness :
  exists result lg',
    find_complete_patients srv_three no_str 1 200 [] = (Ok result, lg')
    /\ Z.of_nat (List.length result) <= 1.
Proof.
  apply (at_most_target_count srv_three no_str 1 200 []). lia.
Defined.

Lemma scan_stops_at_p2_witness :
  find_complete_patients srv_three no_str 1 200 []
  = (Ok [mkStatus (VStr "p2") true 2 true true 2 true],
     [patients_url 200] ++ check_urls no_str (VStr "p1")
       ++ check_urls no_str (VStr "p2")).
Proof.
  exact (proj1 (scan_stops_at_p2 srv_three no_str 200 [] _ _ _ _ _
                  three_enumeration three_p1_run three_p2_run)).
Defined.

Lemma exhausted_search_witness :
  find_complete_patients srv_three no_str 5 200 []
  = (Ok (found srv_three no_str [VStr "p1"; VStr "p2"; VStr "p3"] [patients_url 200]),
     snd (eval_all srv_three no_str [VStr "p1"; VStr "p2"; VStr "p3"]
            [patients_url 200]))
  /\ find_complete_patients srv_none no_str 5 200 []
     = (Ok [], [] ++ [patients_url 200]).
Proof.
  split.
  - destruct (exhausted_search srv_three no_str 5 200 []) as (_ & H & _).
    apply (H _ _ three_enumeration). vm_compute. reflexivity.
  - destruct (exhausted_search srv_none no_str 5 200 []) as (_ & _ & H).
    apply (H [patients_url 200]). vm_compute. reflexivity.
Defined.

(** ** Further properties of the script *)

Section MoreFacts.
Variable server : Log -> string -> GetOutcome.
Variable py_str : value -> string.

(** *** One evaluation *)

Lemma py_len_nonneg x n : py_len x = Ok n -> 0 <= n.
Proof.
  destruct x; cbn; intros H; inversion H; lia.
Qed.

Lemma invariant_seq (P : data_status -> Prop) (m k : M data_status unit) :
  (forall d lg, P d -> P (out_locals (m d lg))) ->
  (forall d lg, P d -> P (out_locals (k d lg))) ->
  forall d lg, P d -> P (out_locals (bind m (fun _ => k) d lg)).
Proof.
  intros Hm Hk d lg Hd. unfold bind. specialize (Hm d lg Hd).
  destruct (m d lg) as [[[]|e] d' lg']; cbn in *; auto.
Qed.

Lemma check_body_counts_nonneg pid d lg :
  0 <= blood_pressure d /\ 0 <= medications d ->
  0 <= blood_pressure (out_locals (check_body server py_str pid d lg))
  /\ 0 <= medications (out_locals (check_body server py_str pid d lg)).
Proof.
  revert d lg. unfold check_body.
  repeat apply invariant_seq; intros d lg [Hb Hm]; open_check; split_outcomes;
    cbn; split; try assumption;
    match goal with
    | H : py_len _ = Ok _ |- _ => apply py_len_nonneg in H; assumption
    end.
Qed.

(** The requests of the [try] body: a non-empty initial part of
    [check_urls], all of it when the body returns. *)
Lemma check_body_requests pid d lg :
  exists k,
    (1 <= k <= 5)%nat
    /\ out_log (check_body server py_str pid d lg)
       = lg ++ firstn k (check_urls py_str pid)
    /\ (out_res (check_body server py_str pid d lg) = Ok tt -> k = 5%nat).
Proof.
  destruct (checks_one_request server py_str pid) as (R1 & R2 & R3 & R4 & R5).
  unfold check_body, bind, check_urls.
  pose proof (proj1 (R1 d lg)) as L1.
  destruct (check_demographics server py_str pid d lg) as [[[]|e] d1 lg1];
    cbn [out_log out_res] in *; subst lg1.
  2:{ exists 1%nat. repeat split; try lia. intros H; discriminate. }
  pose proof (proj1 (R2 d1 (lg ++ [patient_url py_str pid]))) as L2.
  destruct (check_blood_pressure server py_str pid d1 _) as [[[]|e] d2 lg2];
    cbn [out_log out_res] in *; subst lg2; rewrite <- app_assoc.
  2:{ exists 2%nat. repeat split; try lia. intros H; discriminate. }
  match goal with |- context [check_weight server py_str pid d2 ?l] =>
    pose proof (proj1 (R3 d2 l)) as L3;
    destruct (check_weight server py_str pid d2 l) as [[[]|e] d3 lg3] end;
    cbn [out_log out_res] in *; subst lg3; rewrite <- app_assoc.
  2:{ exists 3%nat. repeat split; try lia. intros H; discriminate. }
  match goal with |- context [check_height server py_str pid d3 ?l] =>
    pose proof (proj1 (R4 d3 l)) as L4;
    destruct (check_height server py_str pid d3 l) as [[[]|e] d4 lg4] end;
    cbn [out_log out_res] in *; subst lg4; rewrite <- app_assoc.
  2:{ exists 4%nat. repeat split; try lia. intros H; discriminate. }
  match goal with |- context [check_medications server py_str pid d4 ?l] =>
    pose proof (proj1 (R5 d4 l)) as L5;
    destruct (check_medications server py_str pid d4 l) as [[[]|e] d5 lg5] end;
    cbn [out_log out_res] in *; subst lg5; rewrite <- app_assoc.
  2:{ exists 5%nat. repeat split; try lia. }
  exists 5%nat. repeat split; try lia.
Qed.

(** X1.  One evaluation makes between one and five requests: an initial
    part of the demographics, blood-pressure, weight, height and
    medication requests, in that order, each at most once. *)
Theorem evaluation_requests :
  forall (patient_id : value) (lg : Log) (r : Result (bool * data_status)) (lg' : Log),
    check_patient_data server py_str patient_id lg = (r, lg') ->
    exists k,
      (1 <= k <= 5)%nat
      /\ lg' = lg ++ firstn k (check_urls py_str patient_id).
Proof.
  intros pid lg r lg' H. rewrite check_patient_data_eq in H. cbv zeta in H.
  inversion H as [[Hr Hlg]].
  destruct (check_body_requests pid (init_status pid) lg) as (k & Hk & Hlog & _).
  exists k. split; [exact Hk | exact Hlog].
Qed.

(** X2.  The two counts of a verdict are never negative. *)
Theorem counts_nonnegative :
  forall (patient_id : value) (lg : Log) (b : bool) (v : data_status) (lg' : Log),
    check_patient_data server py_str patient_id lg = (Ok (b, v), lg') ->
    0 <= blood_pressure v /\ 0 <= medications v.
Proof.
  intros pid lg b v lg' H. rewrite check_patient_data_eq in H. cbv zeta in H.
  inversion H as [[Hb Hv Hlg]].
  apply check_body_counts_nonneg. cbn. lia.
Qed.

(** X3.  A verdict is reported complete only when no check raised: all
    five requests, the medication request included, were made, and the
    four required fields are present. *)
Theorem complete_means_all_checks_ran :
  forall (patient_id : value) (lg : Log) (v : data_status) (lg' : Log),
    check_patient_data server py_str patient_id lg = (Ok (true, v), lg') ->
    out_res (check_body server py_str patient_id (init_status patient_id) lg) = Ok tt
    /\ lg' = lg ++ check_urls py_str patient_id
    /\ required_present v = true.
Proof.
  intros pid lg v lg' H. rewrite check_patient_data_eq in H. cbv zeta in H.
  inversion H as [[Hb Hv Hlg]]. clear H.
  pose proof (check_body_ends_well server py_str pid (init_status pid) lg) as He.
  unfold ends_well in He.
  destruct (check_body_requests pid (init_status pid) lg) as (k & Hk & Hlog & Hall).
  destruct (out_res (check_body server py_str pid (init_status pid) lg)) as [[]|e].
  - split; [reflexivity|]. rewrite (Hall eq_refl) in Hlog.
    split; [exact Hlog | congruence].
  - cbn in He. congruence.
Qed.

(** X4.  When all five requests are answered with status 200 and bodies of
    the expected shape (a patient object, four bundles with an [entry]
    list), the verdict is read off the bodies: demographics is the
    presence of both keys [name] and [birthDate], the counts are the
    lengths of the blood-pressure and medication entry lists, weight and
    height say whether their entry lists are non-empty, and all five
    requests are made. *)
Theorem verdict_of_wellformed_responses :
  forall (patient_id : value) (lg : Log)
         (patient : list (string * value)) (bp wt ht med : list value),
    object_response (server lg (patient_url py_str patient_id)) patient ->
    bundle_response
      (server (lg ++ [patient_url py_str patient_id]) (bp_url py_str patient_id)) bp ->
    bundle_response
      (server (lg ++ [patient_url py_str patient_id; bp_url py_str patient_id])
              (weight_url py_str patient_id)) wt ->
    bundle_response
      (server (lg ++ [patient_url py_str patient_id; bp_url py_str patient_id;
                      weight_url py_str patient_id])
              (height_url py_str patient_id)) ht ->
    bundle_response
      (server (lg ++ [patient_url py_str patient_id; bp_url py_str patient_id;
                      weight_url py_str patient_id; height_url py_str patient_id])
              (med_url py_str patient_id)) med ->
    let dem := has_key "name" patient && has_key "birthDate" patient in
    let n_bp := Z.of_nat (List.length bp) in
    let has_wt := 0 <? Z.of_nat (List.length wt) in
    let has_ht := 0 <? Z.of_nat (List.length ht) in
    let complete := dem && (0 <? n_bp) && has_wt && has_ht in
    check_patient_data server py_str patient_id lg
    = (Ok (complete,
           mkStatus patient_id dem n_bp has_wt has_ht
                    (Z.of_nat (List.length med)) complete),
       lg ++ check_urls py_str patient_id).
Proof.
  intros pid lg patient bp wt ht med
    (r1 & Hs1 & H1 & Hj1)
    (i2 & (r2 & Hs2 & H2 & Hj2) & Hg2)
    (i3 & (r3 & Hs3 & H3 & Hj3) & Hg3)
    (i4 & (r4 & Hs4 & H4 & Hj4) & Hg4)
    (i5 & (r5 & Hs5 & H5 & Hj5) & Hg5).
  cbv zeta. rewrite check_patient_data_eq. cbv zeta.
  apply Z.eqb_eq in H1, H2, H3, H4, H5.
  unfold check_urls, has_key, check_body. open_check. unfold bind, ret, lift.
  rewrite Hs1, H1, Hj1. cbn [py_in].
  destruct (dict_get "name" patient) as [x|];
    destruct (dict_get "birthDate" patient) as [y|];
    cbn [andb];
    rewrite <- ?app_assoc; cbn [app];
    rewrite Hs2, H2, Hj2; cbn [py_in py_getitem]; rewrite Hg2; cbn [py_len];
    rewrite <- ?app_assoc; cbn [app];
    rewrite Hs3, H3, Hj3; cbn [py_in py_getitem]; rewrite Hg3; cbn [py_len];
    destruct (0 <? Z.of_nat (List.length wt));
    rewrite <- ?app_assoc; cbn [app];
    rewrite Hs4, H4, Hj4; cbn [py_in py_getitem]; rewrite Hg4; cbn [py_len];
    destruct (0 <? Z.of_nat (List.length ht));
    rewrite <- ?app_assoc; cbn [app];
    rewrite Hs5, H5, Hj5; cbn [py_in py_getitem]; rewrite Hg5; cbn [py_len];
    rewrite <- ?app_assoc; cbn [app];
    reflexivity.
Qed.

(** *** The scan *)

Lemma verdict_facts pid lg b v lg' :
  check_patient_data server py_str pid lg = (Ok (b, v), lg') ->
  b = has_complete_data v
  /\ id v = pid
  /\ (has_complete_data v = true -> required_present v = true).
Proof.
  intros H. rewrite check_patient_data_eq in H. cbv zeta in H.
  inversion H as [[Hb Hv Hlg]]. clear H.
  split; [reflexivity|]. split.
  - rewrite (check_body_preserves_id server py_str pid). reflexivity.
  - pose proof (check_body_ends_well server py_str pid (init_status pid) lg) as He.
    unfold ends_well in He.
    destruct (out_res (check_body server py_str pid (init_status pid) lg)) as [[]|e];
      cbn in He; congruence.
Qed.

(** Whatever the target, the loop evaluates a prefix of the candidates. *)
Lemma scan_loop_prefix target_count ids : forall cp lg,
  exists pre post,
    ids = pre ++ post
    /\ scan_loop server py_str target_count ids cp lg
       = mkOut (Ok tt) (cp ++ found server py_str pre lg)
               (snd (eval_all server py_str pre lg)).
Proof.
  induction ids as [|pid rest IH]; intros cp lg.
  - exists [], []. unfold found. cbn. rewrite app_nil_r. split; reflexivity.
  - destruct (check_patient_data_total server py_str pid lg) as (v & lg1 & Hc).
    cbn [scan_loop]. unfold bind at 1. unfold call. rewrite Hc.
    assert (Hf : forall p,
               found server py_str (pid :: p) lg
               = (if has_complete_data v then [v] else [])
                   ++ found server py_str p lg1).
    { intros p. unfold found. rewrite (eval_all_cons _ _ _ p _ _ _ _ Hc).
      cbn [fst]. unfold completes. cbn [filter fst].
      destruct (has_complete_data v); reflexivity. }
    assert (Hl : forall p,
               snd (eval_all server py_str (pid :: p) lg)
               = snd (eval_all server py_str p lg1)).
    { intros p. rewrite (eval_all_cons _ _ _ p _ _ _ _ Hc). reflexivity. }
    destruct (has_complete_data v) eqn:Hv.
    + unfold bind, modify_local, get_local.
      destruct (Z.of_nat (List.length (cp ++ [v])) >=? target_count).
      * exists [pid], rest. rewrite Hf, Hl. unfold found. cbn.
        split; reflexivity.
      * destruct (IH (cp ++ [v]) lg1) as (pre & post & Hids & Hrun).
        exists (pid :: pre), post. rewrite Hf, Hl, Hrun, Hids.
        rewrite <- app_assoc. split; reflexivity.
    + destruct (IH cp lg1) as (pre & post & Hids & Hrun).
      exists (pid :: pre), post. rewrite Hf, Hl, Hrun, Hids. split; reflexivity.
Qed.

Lemma found_cons pid rest lg b v lg1 :
  check_patient_data server py_str pid lg = (Ok (b, v), lg1) ->
  found server py_str (pid :: rest) lg
  = (if b then [v] else []) ++ found server py_str rest lg1.
Proof.
  intros Hc. unfold found. rewrite (eval_all_cons _ _ _ rest _ _ _ _ Hc).
  cbn [fst]. unfold completes. cbn [filter fst]. destruct b; reflexivity.
Qed.

Lemma found_all_complete ids : forall lg,
  Forall (fun v => has_complete_data v = true /\ required_present v = true)
         (found server py_str ids lg).
Proof.
  induction ids as [|pid rest IH]; intros lg.
  - constructor.
  - destruct (check_patient_data_total server py_str pid lg) as (v & lg1 & Hc).
    rewrite (found_cons _ _ _ _ _ _ Hc).
    destruct (verdict_facts _ _ _ _ _ Hc) as (_ & _ & Hreq).
    destruct (has_complete_data v) eqn:Hv; cbn [app]; [constructor; auto|]; apply IH.
Qed.

Lemma subseq_app_r {A} (l1 l2 l3 : list A) :
  subseq l1 l2 -> subseq l1 (l2 ++ l3).
Proof.
  intros H. induction H; cbn.
  - induction l3; constructor; assumption.
  - constructor; assumption.
  - constructor; assumption.
Qed.

Lemma found_ids_subseq ids : forall lg,
  subseq (map id (found server py_str ids lg)) ids.
Proof.
  induction ids as [|pid rest IH]; intros lg.
  - constructor.
  - destruct (check_patient_data_total server py_str pid lg) as (v & lg1 & Hc).
    rewrite (found_cons _ _ _ _ _ _ Hc).
    destruct (verdict_facts _ _ _ _ _ Hc) as (_ & Hid & _).
    destruct (has_complete_data v); cbn [app map].
    + rewrite Hid. apply subseq_keep. apply IH.
    + apply subseq_skip. apply IH.
Qed.

Lemma check_patient_data_prefix pid lg r lg' :
  check_patient_data server py_str pid lg = (r, lg') ->
  exists k, (1 <= k <= 5)%nat /\ lg' = lg ++ firstn k (check_urls py_str pid).
Proof.
  intros H. rewrite check_patient_data_eq in H. cbv zeta in H.
  inversion H as [[Hr Hlg]].
  destruct (check_body_requests pid (init_status pid) lg) as (k & Hk & Hlog & _).
  exists k. split; [exact Hk | exact Hlog].
Qed.

Lemma eval_all_requests ids : forall lg,
  exists reqs,
    snd (eval_all server py_str ids lg) = lg ++ reqs
    /\ (List.length reqs <= 5 * List.length ids)%nat.
Proof.
  induction ids as [|pid rest IH]; intros lg.
  - exists []. cbn. rewrite app_nil_r. split; [reflexivity | lia].
  - destruct (check_patient_data_total server py_str pid lg) as (v & lg1 & Hc).
    rewrite (eval_all_cons _ _ _ rest _ _ _ _ Hc). cbn [snd].
    destruct (check_patient_data_prefix _ _ _ _ Hc) as (k & Hk & Hlg).
    destruct (IH lg1) as (reqs & Hreqs & Hlen).
    exists (firstn k (check_urls py_str pid) ++ reqs).
    rewrite Hreqs, Hlg, <- app_assoc. split; [reflexivity|].
    rewrite length_app. pose proof (firstn_le_length k (check_urls py_str pid)).
    cbn [List.length] in *. lia.
Qed.

(** X5.  Every verdict the controller returns is a complete one: its
    [has_complete_data] is true and its four required fields are present. *)
Theorem results_are_complete :
  forall (target_count search_limit : Z) (lg : Log)
         (result : list data_status) (lg' : Log),
    find_complete_patients server py_str target_count search_limit lg
    = (Ok result, lg') ->
    Forall (fun v => has_complete_data v = true /\ required_present v = true) result.
Proof.
  intros tc sl lg result lg' H.
  destruct (get_all_patients_total server sl lg) as [ids Hget].
  rewrite (find_complete_patients_eq server py_str tc sl lg ids _ Hget) in H.
  cbv zeta in H.
  destruct (scan_loop_prefix tc ids [] (lg ++ [patients_url sl]))
    as (pre & post & Hids & Hrun).
  rewrite Hrun in H. cbn in H. inversion H. apply found_all_complete.
Qed.

(** X6.  With [target_count >= 1], the controller returns the first
    [target_count] complete verdicts of the enumerated candidates, in
    enumeration order (all of them when there are fewer). *)
Theorem result_is_first_complete_verdicts :
  forall (target_count search_limit : Z) (lg : Log) (ids : list value) (lg1 : Log)
         (result : list data_status) (lg' : Log),
    1 <= target_count ->
    get_all_patients server search_limit lg = (Ok ids, lg1) ->
    find_complete_patients server py_str target_count search_limit lg
    = (Ok result, lg') ->
    result = firstn (Z.to_nat target_count) (found server py_str ids lg1).
Proof.
  intros tc sl lg ids lg1 result lg' Htc Hget H.
  rewrite (find_complete_patients_eq server py_str tc sl lg ids lg1 Hget) in H.
  cbv zeta in H.
  destruct (scan_loop_spec server py_str tc ids [] lg1)
    as (pre & post & Hids & Hrun & Hle & Hpost & _); [cbn; lia|].
  cbn [app] in *. rewrite Hrun in H. cbn in H. inversion H as [[Hres Hlg]].
  clear H Hlg. rewrite Hids, found_app.
  destruct post as [|x post].
  - cbn. rewrite app_nil_r. rewrite firstn_all2; [reflexivity | lia].
  - specialize (Hpost ltac:(discriminate)).
    replace (Z.to_nat tc) with (List.length (found server py_str pre lg1) + 0)%nat
      by lia.
    rewrite firstn_app_2. cbn. rewrite app_nil_r. reflexivity.
Qed.

Lemma scan_loop_target_below_one target_count ids :
  target_count <= 1 ->
  forall lg,
    scan_loop server py_str target_count ids [] lg
    = scan_loop server py_str 1 ids [] lg.
Proof.
  intros Htc. induction ids as [|pid rest IH]; intros lg; [reflexivity|].
  destruct (check_patient_data_total server py_str pid lg) as (v & lg1 & Hc).
  cbn [scan_loop]. unfold bind, call, modify_local, get_local. rewrite Hc.
  destruct (has_complete_data v).
  - cbn [app List.length].
    replace (Z.of_nat 1 >=? target_count) with true
      by (symmetry; apply Z.geb_le; lia).
    reflexivity.
  - apply IH.
Qed.

(** X7.  A target below 1 is treated as 1: the controller still
    evaluates candidates and stops at the first complete one. *)
Theorem target_below_one :
  forall (target_count search_limit : Z) (lg : Log),
    target_count <= 1 ->
    find_complete_patients server py_str target_count search_limit lg
    = find_complete_patients server py_str 1 search_limit lg.
Proof.
  intros tc sl lg Htc.
  destruct (get_all_patients_total server sl lg) as [ids Hget].
  rewrite !(find_complete_patients_eq server py_str _ sl lg ids _ Hget).
  rewrite (scan_loop_target_below_one tc ids Htc). reflexivity.
Qed.

(** X8.  A scan only adds requests to the log, at most one for the
    enumeration and five for each enumerated candidate. *)
Theorem scan_request_bound :
  forall (target_count search_limit : Z) (lg : Log) (ids : list value) (lg1 : Log)
         (result : list data_status) (lg' : Log),
    get_all_patients server search_limit lg = (Ok ids, lg1) ->
    find_complete_patients server py_str target_count search_limit lg
    = (Ok result, lg') ->
    exists reqs,
      lg' = lg ++ reqs
      /\ (List.length reqs <= 1 + 5 * List.length ids)%nat.
Proof.
  intros tc sl lg ids lg1 result lg' Hget H.
  rewrite (find_complete_patients_eq server py_str tc sl lg ids lg1 Hget) in H.
  cbv zeta in H.
  destruct (scan_loop_prefix tc ids [] lg1) as (pre & post & Hids & Hrun).
  rewrite Hrun in H. cbn [out_res out_locals out_log] in H.
  destruct (eval_all_requests pre lg1) as (reqs & Hreqs & Hlen).
  rewrite Hreqs in H.
  destruct (get_all_patients_total server sl lg) as [ids' Hget'].
  rewrite Hget in Hget'.
  assert (Hl1 : lg1 = lg ++ [patients_url sl]) by congruence.
  assert (Hlg : lg' = lg1 ++ reqs) by congruence.
  exists ([patients_url sl] ++ reqs). split.
  - rewrite Hlg, Hl1, <- app_assoc. reflexivity.
  - rewrite Hids in *. rewrite !length_app in *. cbn [List.length]. lia.
Qed.

(** X9.  The enumeration is all or nothing: one entry of the response
    without [resource] or without [id] makes the result empty, also when
    other entries carry identifiers. *)
Theorem one_bad_entry_empties_enumeration :
  forall (limit : Z) (lg : Log) (r : Response)
         (items : list (string * value)) (es : list value),
    server lg (patients_url limit) = GetReturns r ->
    json r = Some (VDict items) ->
    dict_get "entry" items = Some (VList es) ->
    Exists (fun entry => exists e, entry_id entry = Raise e) es ->
    get_all_patients server limit lg = (Ok [], lg ++ [patients_url limit]).
Proof.
  intros limit lg r items es Hs Hj Hg Hbad.
  destruct (get_all_patients_total server limit lg) as [ids Hget].
  destruct (get_all_patients_shape server limit lg ids _ Hget)
    as [->|(r' & items' & es' & Hs' & Hj' & Hg' & He)]; [exact Hget|].
  exfalso. rewrite Hs in Hs'. inversion Hs'. subst r'.
  rewrite Hj in Hj'. inversion Hj'. subst items'.
  rewrite Hg in Hg'. inversion Hg'. subst es'.
  apply entry_ids_Forall2 in He. clear - Hbad He.
  induction He as [|e i es ids He' _ IH].
  - inversion Hbad.
  - inversion Hbad as [? ? [x Hx]|? ? Hrest]; subst.
    + congruence.
    + apply IH. exact Hrest.
Qed.

(** X10.  The identifiers of the returned verdicts are enumerated
    candidates, in enumeration order: they form a subsequence of the
    enumeration. *)
Theorem result_ids_in_enumeration_order :
  forall (target_count search_limit : Z) (lg : Log) (ids : list value) (lg1 : Log)
         (result : list data_status) (lg' : Log),
    get_all_patients server search_limit lg = (Ok ids, lg1) ->
    find_complete_patients server py_str target_count search_limit lg
    = (Ok result, lg') ->
    subseq (map id result) ids.
Proof.
  intros tc sl lg ids lg1 result lg' Hget H.
  rewrite (find_complete_patients_eq server py_str tc sl lg ids lg1 Hget) in H.
  cbv zeta in H.
  destruct (scan_loop_prefix tc ids [] lg1) as (pre & post & Hids & Hrun).
  rewrite Hrun in H. cbn in H. inversion H as [[Hres Hlg]].
  rewrite Hids. apply subseq_app_r. apply found_ids_subseq.
Qed.

End MoreFacts.

(** *** The further properties at work *)

Example three_scan_run :
  find_complete_patients srv_three no_str 1 200 []
  = (Ok [mkStatus (VStr "p2") true 2 true true 2 true],
     [patients_url 200] ++ check_urls no_str (VStr "p1")
       ++ check_urls no_str (VStr "p2")).
Proof. vm_compute. reflexivity. Qed.

Lemma evaluation_requests_witness :
  exists k,
    (1 <= k <= 5)%nat
    /\ [patient_url no_str (VStr "p1"); bp_url no_str (VStr "p1")]
       = [] ++ firstn k (check_urls no_str (VStr "p1")).
Proof.
  exact (evaluation_requests srv_bp_down no_str _ _ _ _ bp_down_run).
Defined.

Lemma counts_nonnegative_witness :
  0 <= blood_pressure (mkStatus (VStr "p2") true 2 true true 2 true)
  /\ 0 <= medications (mkStatus (VStr "p2") true 2 true true 2 true).
Proof.
  exact (counts_nonnegative srv_three no_str _ _ _ _ _ three_p2_run).
Defined.

Lemma complete_means_all_checks_ran_witness :
  [patients_url 200] ++ check_urls no_str (VStr "p1") ++ check_urls no_str (VStr "p2")
  = ([patients_url 200] ++ check_urls no_str (VStr "p1"))
      ++ check_urls no_str (VStr "p2")
  /\ required_present (mkStatus (VStr "p2") true 2 true true 2 true) = true.
Proof.
  destruct (complete_means_all_checks_ran srv_three no_str _ _ _ _ three_p2_run)
    as (_ & Hlog & Hreq).
  split; [exact Hlog | exact Hreq].
Defined.

Lemma verdict_of_wellformed_responses_witness :
  check_patient_data srv_three no_str (VStr "p2") []
  = (Ok (true, mkStatus (VStr "p2") true 2 true true 2 true),
     [] ++ check_urls no_str (VStr "p2")).
Proof.
  apply (verdict_of_wellformed_responses srv_three no_str (VStr "p2") []
           [("resourceType", VStr "Patient");
            ("name", VList [VDict [("family", VStr "Doe")]]);
            ("birthDate", VStr "1970-01-01")]
           [observation; observation] [observation] [observation]
           [observation; observation]).
  - eexists. split; [vm_compute; reflexivity|]. split; reflexivity.
  - eexists. split;
      [eexists; split; [vm_compute; reflexivity | split; reflexivity]
      | reflexivity].
  - eexists. split;
      [eexists; split; [vm_compute; reflexivity | split; reflexivity]
      | reflexivity].
  - eexists. split;
      [eexists; split; [vm_compute; reflexivity | split; reflexivity]
      | reflexivity].
  - eexists. split;
      [eexists; split; [vm_compute; reflexivity | split; reflexivity]
      | reflexivity].
Defined.

Lemma results_are_complete_witness :
  Forall (fun v => has_complete_data v = true /\ required_present v = true)
         [mkStatus (VStr "p2") true 2 true true 2 true].
Proof.
  exact (results_are_complete srv_three no_str _ _ _ _ _ three_scan_run).
Defined.

Lemma result_is_first_complete_verdicts_witness :
  [mkStatus (VStr "p2") true 2 true true 2 true]
  = firstn (Z.to_nat 1)
      (found srv_three no_str [VStr "p1"; VStr "p2"; VStr "p3"] [patients_url 200]).
Proof.
  apply (result_is_first_complete_verdicts srv_three no_str 1 200 [] _ _ _ _
           ltac:(lia) three_enumeration three_scan_run).
Defined.

Lemma target_below_one_witness :
  find_complete_patients srv_three no_str 0 200 []
  = find_complete_patients srv_three no_str 1 200 [].
Proof.
  apply (target_below_one srv_three no_str 0 200 []). lia.
Defined.

Lemma scan_request_bound_witness :
  exists reqs,
    [patients_url 200] ++ check_urls no_str (VStr "p1") ++ check_urls no_str (VStr "p2")
    = [] ++ reqs
    /\ (List.length reqs <= 1 + 5 * 3)%nat.
Proof.
  exact (scan_request_bound srv_three no_str 1 200 [] _ _ _ _
           three_enumeration three_scan_run).
Defined.

Lemma one_bad_entry_empties_enumeration_witness :
  get_all_patients srv_one_bad 50 [] = (Ok [], [] ++ [patients_url 50]).
Proof.
  apply (one_bad_entry_empties_enumeration srv_one_bad 50 []
           (mkResponse 200 (Some (bundle [patient_entry "p1";
                                          VDict [("fullUrl", VStr "urn:x")];
                                          patient_entry "p3"])))
           [("resourceType", VStr "Bundle");
            ("entry", VList [patient_entry "p1";
                             VDict [("fullUrl", VStr "urn:x")];
                             patient_entry "p3"])]
           [patient_entry "p1"; VDict [("fullUrl", VStr "urn:x")];
            patient_entry "p3"]).
  - reflexivity.
  - reflexivity.
  - reflexivity.
  - apply Exists_cons_tl. apply Exists_cons_hd. exists KeyError. reflexivity.
Defined.

Lemma result_ids_in_enumeration_order_witness :
  subseq (map id [mkStatus (VStr "p2") true 2 true true 2 true])
         [VStr "p1"; VStr "p2"; VStr "p3"].
Proof.
  exact (result_ids_in_enumeration_order srv_three no_str 1 200 [] _ _ _ _
           three_enumeration three_scan_run).
Defined.
